(** * Booking controller: availability and guest rules

    A shallow embedding of [src/source/controllers/bookings.ts] and the
    properties of its conflict engine.

    Modelling choices, in the order the source raises them.

    - A JavaScript [Date] is its time value: a number of milliseconds since
      the epoch, an integer [Z], or NaN for an Invalid Date, [None].  The
      relational operators of the source compare these time values, and a
      comparison with NaN is false.  The check-in date of a request and of
      a stored reservation is a valid date, given by its time value; the
      dates that [getCheckoutDate] returns can be invalid.
    - [numberOfNights] is an integer [Z]; nothing in the source restricts its
      sign, so neither does the model.  A parameter that would hide a record
      field of the same name carries a trailing underscore.
    - [getCheckoutDate] calls [setDate(getDate() + n)], which moves the
      calendar day by [n] days, keeps the time within the day, and leaves
      an Invalid Date when the result is more than [maxTime] milliseconds
      away from the epoch ([TimeClip]) or when the date it starts from is
      invalid.  The model takes the process time zone to be UTC, where
      every calendar day has [msPerDay] milliseconds.
    - The [booking] table behind [prisma] is a finite map from the primary
      key [id] to the four columns of the [Booking] interface.  The order in
      which [findMany] and [findFirst] enumerate the rows is the order of
      [map_to_list]; no property below depends on it.
    - Each handler runs alone on the table (the source awaits every query in
      sequence): a handler is a function from the table to an outcome and a
      new table. *)

From stdpp Require Import gmap strings list fin_maps.

Open Scope Z_scope.

(** ** Dates *)

Module Date.

Definition msPerDay : Z := 86400000.

(** The largest time value of a valid date, 8.64e15 milliseconds. *)
Definition maxTime : Z := 8640000000000000.

(** A date: [Some] of its time value, or [None] for an Invalid Date. *)
Definition t : Type := option Z.

(** The valid date with the given time value. *)
Definition valid (time : Z) : t := Some time.

Definition inRange (time : Z) : Prop := - maxTime ≤ time ∧ time ≤ maxTime.

(** [TimeClip] of the language specification, on integers. *)
Definition TimeClip (time : Z) : t :=
  if Z.abs time <=? maxTime then Some time else None.

(** The relational operators on dates: false as soon as one side is an
    Invalid Date. *)
Definition lt (a b : t) : bool :=
  match a, b with Some x, Some y => x <? y | _, _ => false end.
Definition le (a b : t) : bool :=
  match a, b with Some x, Some y => x <=? y | _, _ => false end.
Definition gt (a b : t) : bool :=
  match a, b with Some x, Some y => x >? y | _, _ => false end.
Definition ge (a b : t) : bool :=
  match a, b with Some x, Some y => x >=? y | _, _ => false end.

(** Day number (days since 1970-01-01) of a proleptic Gregorian date,
    [m] in 1..12 and [d] in 1..31. *)
Definition daysFromCivil (y m d : Z) : Z :=
  let y' := if m <=? 2 then y - 1 else y in
  let era := y' `div` 400 in
  let yoe := y' - era * 400 in
  let mp := if 2 <? m then m - 3 else m + 9 in
  let doy := (153 * mp + 2) `div` 5 + d - 1 in
  let doe := yoe * 365 + yoe `div` 4 - yoe `div` 100 + doy in
  era * 146097 + doe - 719468.

(** Time value of [new Date("yyyy-mm-dd")]: midnight UTC of that day. *)
Definition ofYMD (y m d : Z) : Z := daysFromCivil y m d * msPerDay.

End Date.

Coercion Date.valid : Z >-> Date.t.

(** ** Data model *)

Record Booking := mkBooking {
  guestName : string;
  unitID : string;
  checkInDate : Z;
  numberOfNights : Z
}.

Record ExtendedBooking := mkExtendedBooking {
  ext_guestName : string;
  ext_unitID : string;
  ext_numberOfNights : Z
}.

#[global] Instance Booking_eq_dec : EqDecision Booking.
Proof. solve_decision. Defined.

(** The reservation with its [numberOfNights] column set to [nights]. *)
Definition setNights (b : Booking) (nights : Z) : Booking :=
  mkBooking (guestName b) (unitID b) (checkInDate b) nights.

(** A row as [prisma] returns it: the primary key and the columns. *)
Abbreviation Row := (positive * Booking)%type.

Definition row_id (r : Row) : positive := r.1.

(** ** The record store *)

Module prisma.

(** [prisma.booking.findMany({where})] *)
Definition findMany (where_ : Row → bool) (db : gmap positive Booking) : list Row :=
  filter (λ r, where_ r = true) (map_to_list db).

(** [prisma.booking.findFirst({where})] *)
Definition findFirst (where_ : Row → bool) (db : gmap positive Booking) : option Row :=
  head (findMany where_ db).

(** Modelled from the spec: the identifier the record store assigns to an
    inserted reservation ([insertReservation] "assigns identifier"); the
    schema is not part of the source.  The model takes a key that is not
    in use. *)
Definition nextId (db : gmap positive Booking) : positive := fresh (dom db).

(** [prisma.booking.create({data})] *)
Definition create (data : Booking) (db : gmap positive Booking)
  : Row * gmap positive Booking :=
  let i := nextId db in ((i, data), <[i := data]> db).

(** [prisma.booking.update({where: {id}, data: {numberOfNights}})]; the
    call throws ([None]) when no row has that [id]. *)
Definition update (i : positive) (nights : Z) (db : gmap positive Booking)
  : option (Row * gmap positive Booking) :=
  match db !! i with
  | Some b => let b' := setNights b nights in Some ((i, b'), <[i := b']> db)
  | None => None
  end.

End prisma.

(** ** HTTP outcomes *)

Inductive Body :=
| Text (s : string)
| Json (r : Row).

(** [res.status(s).json(b)], or an exception that escapes the handler. *)
Inductive Outcome :=
| Respond (status : Z) (body : Body)
| Throws.

Record bookingOutcome := mkOutcome { result : bool; reason : string }.

(** ** The controller *)

Definition getCheckoutDate (checkInDate_ : Date.t) (numberOfNights_ : Z) : Date.t :=
  match checkInDate_ with
  | Some time => Date.TimeClip (time + numberOfNights_ * Date.msPerDay)
  | None => None
  end.

Definition getAllBookingsOnUnit (unitID_ : string) (db : gmap positive Booking) : list Row :=
  prisma.findMany (λ r, bool_decide (unitID r.2 = unitID_)) db.

(** The condition of the [if] inside the loop of [isDateRangeAvailable]. *)
Definition dateRangeClash
  (checkInDate_ newCheckOutDate existingCheckInDate existingCheckOutDate : Date.t)
  : bool :=
  (Date.ge checkInDate_ existingCheckInDate
   && Date.lt checkInDate_ existingCheckOutDate)
  || (Date.gt newCheckOutDate existingCheckInDate
      && Date.le newCheckOutDate existingCheckOutDate)
  || (Date.le checkInDate_ existingCheckInDate
      && Date.ge newCheckOutDate existingCheckOutDate).

(** The [for ... of] loop of [isDateRangeAvailable], with its early
    [return false]. *)
Fixpoint isDateRangeAvailable_loop
  (checkInDate_ newCheckOutDate : Date.t) (bookings : list Row) : bool :=
  match bookings with
  | [] => true
  | booking :: rest =>
      let existingCheckInDate : Date.t := checkInDate booking.2 in
      let existingCheckOutDate :=
        getCheckoutDate existingCheckInDate (numberOfNights booking.2) in
      if dateRangeClash checkInDate_ newCheckOutDate
           existingCheckInDate existingCheckOutDate
      then false
      else isDateRangeAvailable_loop checkInDate_ newCheckOutDate rest
  end.

Definition isDateRangeAvailable
  (checkInDate_ : Date.t) (numberOfNights_ : Z) (unitID_ : string)
  (db : gmap positive Booking) : bool :=
  let newCheckOutDate := getCheckoutDate checkInDate_ numberOfNights_ in
  isDateRangeAvailable_loop checkInDate_ newCheckOutDate
    (getAllBookingsOnUnit unitID_ db).

Definition reason_sameUnit : string :=
  "The given guest name cannot book the same unit multiple times".
Definition reason_multipleUnits : string :=
  "The same guest cannot be in multiple units at the same time".
Definition reason_occupied : string :=
  "For the given check-in date, the unit is already occupied".
Definition reason_noActive : string :=
  "No active bookings found for this guest".
Definition reason_extend : string :=
  "extend booking is not possible, this unit is already reserved by other customer".

Definition isBookingPossible (booking : Booking) (db : gmap positive Booking)
  : bookingOutcome :=
  (* check 1 : The Same guest cannot book the same unit multiple times *)
  let sameGuestSameUnit :=
    prisma.findMany
      (λ r, bool_decide (guestName r.2 = guestName booking)
            && bool_decide (unitID r.2 = unitID booking)) db in
  if (0 <? length sameGuestSameUnit)%nat then mkOutcome false reason_sameUnit
  else
  (* check 2 : the same guest cannot be in multiple units at the same time *)
  let sameGuestAlreadyBooked :=
    prisma.findMany (λ r, bool_decide (guestName r.2 = guestName booking)) db in
  if (0 <? length sameGuestAlreadyBooked)%nat then mkOutcome false reason_multipleUnits
  else
  (* check 3 : Unit is available for the check-in date *)
  let getAllBookingsForUnit := getAllBookingsOnUnit (unitID booking) db in
  if (0 <? length getAllBookingsForUnit)%nat then
    let isAvailable :=
      isDateRangeAvailable (checkInDate booking) (numberOfNights booking)
        (unitID booking) db in
    if negb isAvailable then mkOutcome false reason_occupied
    else mkOutcome true "OK"
  else mkOutcome true "OK".

Definition createBooking (booking : Booking) (db : gmap positive Booking)
  : Outcome * gmap positive Booking :=
  let outcome := isBookingPossible booking db in
  if negb (result outcome) then (Respond 400 (Text (reason outcome)), db)
  else
    let '(bookingResult, db') :=
      prisma.create
        (mkBooking (guestName booking) (unitID booking)
           (checkInDate booking) (numberOfNights booking)) db in
    (Respond 200 (Json bookingResult), db').

(** The [findFirst] query at the head of [extendBooking], whose result the
    source names [hasActiveBooking]. *)
Definition findActiveBooking (extend : ExtendedBooking) (db : gmap positive Booking)
  : option Row :=
  prisma.findFirst
    (λ r, bool_decide (guestName r.2 = ext_guestName extend)
          && bool_decide (unitID r.2 = ext_unitID extend)) db.

Definition extendBooking (extend : ExtendedBooking) (db : gmap positive Booking)
  : Outcome * gmap positive Booking :=
  (* check if user has active booking for the unit *)
  match findActiveBooking extend db with
  | None => (Respond 400 (Text reason_noActive), db)
  | Some hasActiveBooking =>
      (* get extended checkInDate *)
      let extendedCheckInDate :=
        getCheckoutDate (checkInDate hasActiveBooking.2)
          (numberOfNights hasActiveBooking.2) in
      let isExtendAvailable :=
        isDateRangeAvailable extendedCheckInDate (ext_numberOfNights extend)
          (ext_unitID extend) db in
      if negb isExtendAvailable then (Respond 400 (Text reason_extend), db)
      else
        (* save extended booking *)
        match prisma.update (row_id hasActiveBooking)
                (numberOfNights hasActiveBooking.2 + ext_numberOfNights extend) db with
        | Some (updatedBooking, db') => (Respond 200 (Json updatedBooking), db')
        | None => (Throws, db)
        end
  end.

(** ** Request sequences *)

Inductive Request :=
| CreateBooking (booking : Booking)
| ExtendBooking (extend : ExtendedBooking).

Definition handle (req : Request) (db : gmap positive Booking)
  : Outcome * gmap positive Booking :=
  match req with
  | CreateBooking booking => createBooking booking db
  | ExtendBooking extend => extendBooking extend db
  end.

(** The table after serving the requests one after the other. *)
Fixpoint serve (reqs : list Request) (db : gmap positive Booking)
  : gmap positive Booking :=
  match reqs with
  | [] => db
  | req :: reqs' => serve reqs' (handle req db).2
  end.

Definition request_nights (req : Request) : Z :=
  match req with
  | CreateBooking booking => numberOfNights booking
  | ExtendBooking extend => ext_numberOfNights extend
  end.

(** ** The overlap test in the words of the specification

    Two half-open intervals [[aStart, aEnd)] and [[bStart, bEnd)] overlap
    iff [aStart < bEnd] and [bStart < aEnd], each end being the start plus
    the nights in days, on the time line itself. *)

Definition intervalsOverlap (aStart aNights bStart bNights : Z) : bool :=
  let aEnd := aStart + aNights * Date.msPerDay in
  let bEnd := bStart + bNights * Date.msPerDay in
  (aStart <? bEnd) && (bStart <? aEnd).

(** The derived attribute [checkOut = checkIn + nights days] of a
    reservation, the exclusive end of the stay on the time line. *)
Definition checkOut (b : Booking) : Z :=
  checkInDate b + numberOfNights b * Date.msPerDay.

(** ** Store invariants *)

(** No two stored reservations of one unit overlap. *)
Definition unitsDisjoint (db : gmap positive Booking) : Prop :=
  ∀ i j bi bj,
    db !! i = Some bi → db !! j = Some bj → i ≠ j →
    unitID bi = unitID bj →
    intervalsOverlap (checkInDate bi) (numberOfNights bi)
      (checkInDate bj) (numberOfNights bj) = false.

(** Every guest has at most one stored reservation, over all units. *)
Definition guestsUnique (db : gmap positive Booking) : Prop :=
  ∀ i j bi bj,
    db !! i = Some bi → db !! j = Some bj →
    guestName bi = guestName bj → i = j.

(** Every stored reservation lasts at least one night. *)
Definition nightsPositive (db : gmap positive Booking) : Prop :=
  ∀ i b, db !! i = Some b → 1 ≤ numberOfNights b.

(** What the handlers maintain from one request to the next. *)
Definition consistent (db : gmap positive Booking) : Prop :=
  unitsDisjoint db ∧ guestsUnique db ∧ nightsPositive db.

(** ** Dates within the range of [Date] *)

(** Every stored reservation starts at a time value no less than
    [- maxTime], and its checkout stays no more than [maxTime] also after
    [slack] further nights. *)
Definition withinRange (slack : Z) (db : gmap positive Booking) : Prop :=
  ∀ i b, db !! i = Some b →
    - Date.maxTime ≤ checkInDate b
    ∧ checkInDate b + (numberOfNights b + slack) * Date.msPerDay
      ≤ Date.maxTime.

(** The nights counts of a run of requests, added up. *)
Fixpoint totalNights (reqs : list Request) : Z :=
  match reqs with
  | [] => 0
  | req :: reqs' => request_nights req + totalNights reqs'
  end.

(** The check-in date of a booking request, moved forward by [total]
    nights, is within the range of [Date]. *)
Definition requestFits (total : Z) (req : Request) : Prop :=
  match req with
  | CreateBooking booking =>
      - Date.maxTime ≤ checkInDate booking
      ∧ checkInDate booking + total * Date.msPerDay ≤ Date.maxTime
  | ExtendBooking _ => True
  end.

(** ** Conditions on a table, as the checks of the controller see it *)

(** The guest holds no stored reservation. *)
Definition noStayOfGuest (g : string) (db : gmap positive Booking) : Prop :=
  ∀ j b, db !! j = Some b → guestName b ≠ g.

(** No stored reservation of the unit makes the comparison of
    [isDateRangeAvailable] fire for the candidate [s], [n] nights. *)
Definition noClashOnUnit (s n : Z) (u : string) (db : gmap positive Booking) : Prop :=
  ∀ j b, db !! j = Some b → unitID b = u →
    dateRangeClash s (getCheckoutDate s n) (checkInDate b)
      (getCheckoutDate (checkInDate b) (numberOfNights b)) = false.

(** The guest holds a stored reservation. *)
Definition hasStay (g : string) (db : gmap positive Booking) : Prop :=
  ∃ i b, db !! i = Some b ∧ guestName b = g.

(** The guest holds a stored reservation of the unit. *)
Definition hasStayOnUnit (g u : string) (db : gmap positive Booking) : Prop :=
  ∃ i b, db !! i = Some b ∧ guestName b = g ∧ unitID b = u.

(** Some stored reservation of the unit makes the comparison of
    [isDateRangeAvailable] fire for the candidate [s], [n] nights. *)
Definition clashOnUnit (s n : Z) (u : string) (db : gmap positive Booking) : Prop :=
  ∃ j b, db !! j = Some b ∧ unitID b = u ∧
    dateRangeClash s (getCheckoutDate s n) (checkInDate b)
      (getCheckoutDate (checkInDate b) (numberOfNights b)) = true.

(** ** Example tables and requests *)

Module Ex.

Definition march (d : Z) : Z := Date.ofYMD 2024 3 d.

(** Unit U holds one reservation: check-in 2024-03-01, five nights. *)
Definition stay : Booking := mkBooking "alice" "U" (march 1) 5.
Definition db1 : gmap positive Booking := {[1%positive := stay]}.

(** The same guest asks for the same unit again, weeks later. *)
Definition again : Booking := mkBooking "alice" "U" (march 20) 2.

(** The same guest asks for another unit. *)
Definition elsewhere : Booking := mkBooking "alice" "V" (march 20) 2.

(** Another guest asks for unit U from the checkout day on. *)
Definition adjacent : Booking := mkBooking "bob" "U" (march 6) 3.

(** Another guest asks for the last occupied night of unit U. *)
Definition lastNight : Booking := mkBooking "bob" "U" (march 5) 1.

(** A request for zero nights. *)
Definition zeroNights : Booking := mkBooking "carol" "W" (march 1) 0.

Definition extendAlice : ExtendedBooking := mkExtendedBooking "alice" "U" 3.
Definition extendBob : ExtendedBooking := mkExtendedBooking "bob" "U" 3.

(** Unit U with a second reservation that starts on the checkout day of
    the first. *)
Definition later : Booking := mkBooking "dave" "U" (march 6) 2.
Definition db2 : gmap positive Booking := <[2%positive := later]> db1.

(** Unit U with a stored reservation of zero nights on the checkout day
    of the first, as a request for zero nights leaves it. *)
Definition empty : Booking := mkBooking "erin" "U" (march 6) 0.
Definition db3 : gmap positive Booking := <[2%positive := empty]> db1.

(** A run of requests, each for at least one night: two accepted
    bookings of unit U, an extension that is blocked, one that goes
    through, and a repeated booking. *)
Definition session : list Request :=
  [CreateBooking stay; CreateBooking adjacent; ExtendBooking extendAlice;
   ExtendBooking extendBob; CreateBooking again].

(** A request for unit U from 2024-02-20 for a hundred million nights:
    its checkout is more than [maxTime] milliseconds after the epoch. *)
Definition february20 : Z := Date.ofYMD 2024 2 20.
Definition endless : Booking := mkBooking "bob" "U" february20 100000000.
Definition overlong : list Request := [CreateBooking stay; CreateBooking endless].

(** A stay of zero nights on 2024-03-06 is booked first, then two nights
    from 2024-03-01 by another guest, who then asks for three more. *)
Definition short : Booking := mkBooking "alice" "U" (march 1) 2.
Definition zeroFirst : list Request := [CreateBooking empty; CreateBooking short].

(** Unit U with a second reservation in January 2025, and an extension
    of the first by a hundred million nights. *)
Definition nextYear : Booking := mkBooking "dave" "U" (Date.ofYMD 2025 1 1) 2.
Definition db4 : gmap positive Booking := <[2%positive := nextYear]> db1.
Definition extendForever : ExtendedBooking :=
  mkExtendedBooking "alice" "U" 100000000.

End Ex.

(** * Properties *)

(** ** Date comparisons *)

Lemma msPerDay_pos : 0 < Date.msPerDay.
Proof. reflexivity. Qed.

Lemma TimeClip_inRange time :
  Date.inRange time → Date.TimeClip time = Some time.
Proof.
  unfold Date.inRange, Date.TimeClip. intros H.
  assert ((Z.abs time <=? Date.maxTime) = true) as -> by (apply Z.leb_le; lia).
  done.
Qed.

Lemma TimeClip_Some time d :
  Date.TimeClip time = Some d → d = time ∧ Date.inRange time.
Proof.
  unfold Date.inRange, Date.TimeClip.
  destruct (Z.abs time <=? Date.maxTime) eqn:H; [|done].
  intros [= <-]. apply Z.leb_le in H. split; [done|lia].
Qed.

(** From a valid date, [getCheckoutDate] gives a valid date exactly when
    the day it moves to is within the range of [Date]. *)
Lemma getCheckoutDate_Some (s n d : Z) :
  getCheckoutDate s n = Some d →
  d = s + n * Date.msPerDay ∧ Date.inRange (s + n * Date.msPerDay).
Proof. apply TimeClip_Some. Qed.

Lemma getCheckoutDate_inRange (s n : Z) :
  Date.inRange (s + n * Date.msPerDay) →
  getCheckoutDate s n = Date.valid (s + n * Date.msPerDay).
Proof. apply TimeClip_inRange. Qed.

Lemma getCheckoutDate_is_Some (s n : Z) :
  is_Some (getCheckoutDate s n) ↔ Date.inRange (s + n * Date.msPerDay).
Proof.
  split.
  - intros [d Hd]. by apply getCheckoutDate_Some in Hd as [_ H].
  - intros H. rewrite getCheckoutDate_inRange by done. by eexists.
Qed.

(** The comparison on four valid dates. *)
Lemma dateRangeClash_true (s e s' e' : Z) :
  dateRangeClash s e s' e' = true ↔
  (s' ≤ s ∧ s < e') ∨ (s' < e ∧ e ≤ e') ∨ (s ≤ s' ∧ e' ≤ e).
Proof.
  unfold dateRangeClash. simpl. rewrite !orb_true_iff, !andb_true_iff.
  rewrite !Z.geb_leb, Z.gtb_ltb, !Z.leb_le, !Z.ltb_lt. tauto.
Qed.

(** When the candidate ends on an Invalid Date, only the first disjunct
    can fire. *)
Lemma dateRangeClash_end_invalid_true (s s' e' : Z) :
  dateRangeClash s None s' e' = true ↔ s' ≤ s ∧ s < e'.
Proof.
  unfold dateRangeClash. simpl. rewrite !orb_false_r, andb_false_r, orb_false_r.
  rewrite andb_true_iff, Z.geb_leb, Z.leb_le, Z.ltb_lt. tauto.
Qed.

(** Against a stored reservation whose checkout is an Invalid Date the
    comparison never fires. *)
Lemma dateRangeClash_existing_invalid (s e s' : Date.t) :
  dateRangeClash s e s' None = false.
Proof.
  unfold dateRangeClash, Date.ge, Date.lt, Date.gt, Date.le.
  destruct s, e, s'; simpl; by rewrite ?andb_false_r.
Qed.

(** For a candidate that starts on an Invalid Date, and so ends on one,
    the comparison never fires. *)
Lemma dateRangeClash_start_invalid (s' e' : Date.t) :
  dateRangeClash None None s' e' = false.
Proof.
  unfold dateRangeClash, Date.ge, Date.lt, Date.gt, Date.le.
  by destruct s', e'.
Qed.

Lemma intervalsOverlap_true s n s' n' :
  intervalsOverlap s n s' n' = true ↔
  s < s' + n' * Date.msPerDay ∧ s' < s + n * Date.msPerDay.
Proof.
  unfold intervalsOverlap. cbv zeta.
  by rewrite andb_true_iff, !Z.ltb_lt.
Qed.

Lemma bool_eq_iff (a b : bool) : (a = true ↔ b = true) → a = b.
Proof. destruct a, b; intuition congruence. Qed.

(** With both checkouts valid, the half-open test implies the
    three-disjunct test, whatever the nights. *)
Lemma overlap_clash (s n s' n' : Z) :
  is_Some (getCheckoutDate s n) → is_Some (getCheckoutDate s' n') →
  intervalsOverlap s n s' n' = true →
  dateRangeClash s (getCheckoutDate s n) s' (getCheckoutDate s' n') = true.
Proof.
  intros H H'. apply getCheckoutDate_is_Some in H, H'.
  rewrite !getCheckoutDate_inRange by done.
  rewrite intervalsOverlap_true, dateRangeClash_true. lia.
Qed.

(** The converse needs the candidate to be non-empty (first disjunct) and
    the existing interval to be non-empty (third disjunct), and holds
    also when a checkout is an Invalid Date. *)
Lemma clash_overlap (s n s' n' : Z) :
  1 ≤ n → 1 ≤ n' →
  dateRangeClash s (getCheckoutDate s n) s' (getCheckoutDate s' n') = true →
  intervalsOverlap s n s' n' = true.
Proof.
  intros Hn Hn'. rewrite intervalsOverlap_true.
  pose proof msPerDay_pos.
  destruct (getCheckoutDate s' n') as [e'|] eqn:He'.
  2: { by rewrite dateRangeClash_existing_invalid. }
  apply getCheckoutDate_Some in He' as [-> _].
  destruct (getCheckoutDate s n) as [e|] eqn:He.
  - apply getCheckoutDate_Some in He as [-> _].
    change (Some ?x) with (Date.valid x). rewrite dateRangeClash_true. nia.
  - change (Some ?x) with (Date.valid x).
    rewrite dateRangeClash_end_invalid_true. nia.
Qed.



(** ** Queries on the table *)

Lemma findMany_elem p (db : gmap positive Booking) (r : Row) :
  r ∈ prisma.findMany p db ↔ db !! r.1 = Some r.2 ∧ p r = true.
Proof.
  unfold prisma.findMany. rewrite list_elem_of_filter.
  destruct r as [i b]. rewrite elem_of_map_to_list. simpl. tauto.
Qed.

Lemma findMany_nil p (db : gmap positive Booking) :
  prisma.findMany p db = [] ↔ ∀ i b, db !! i = Some b → p (i, b) = false.
Proof.
  split.
  - intros Hnil i b Hib. destruct (p (i, b)) eqn:Hp; [|done].
    assert ((i, b) ∈ prisma.findMany p db) as Hin by by apply findMany_elem.
    rewrite Hnil in Hin. by apply elem_of_nil in Hin.
  - intros Hall. apply elem_of_nil_inv. intros [i b] Hin.
    apply findMany_elem in Hin as [Hib Hp]. simpl in Hib.
    rewrite (Hall i b Hib) in Hp. done.
Qed.

Lemma length_pos_true {A} (l : list A) : (0 <? length l)%nat = true ↔ l ≠ [].
Proof. destruct l; simpl; split; intros; done. Qed.

Lemma length_pos_false {A} (l : list A) : (0 <? length l)%nat = false ↔ l = [].
Proof. destruct l; simpl; split; intros; done. Qed.

Lemma findFirst_Some p (db : gmap positive Booking) (r : Row) :
  prisma.findFirst p db = Some r → db !! r.1 = Some r.2 ∧ p r = true.
Proof.
  unfold prisma.findFirst. intros H.
  apply head_Some_elem_of in H. by apply findMany_elem.
Qed.

Lemma findFirst_None p (db : gmap positive Booking) :
  prisma.findFirst p db = None ↔ ∀ i b, db !! i = Some b → p (i, b) = false.
Proof.
  unfold prisma.findFirst. rewrite <- findMany_nil.
  destruct (prisma.findMany p db); simpl; split; intros; done.
Qed.

Lemma getAllBookingsOnUnit_elem u (db : gmap positive Booking) (r : Row) :
  r ∈ getAllBookingsOnUnit u db ↔ db !! r.1 = Some r.2 ∧ unitID r.2 = u.
Proof.
  unfold getAllBookingsOnUnit. rewrite findMany_elem.
  by rewrite bool_decide_eq_true.
Qed.

(** The loop returns [true] exactly when no element makes the [if] fire. *)
Lemma loop_true s e (l : list Row) :
  isDateRangeAvailable_loop s e l = true ↔
  ∀ r, r ∈ l →
    dateRangeClash s e (checkInDate r.2)
      (getCheckoutDate (checkInDate r.2) (numberOfNights r.2)) = false.
Proof.
  induction l as [|x l IH]; simpl.
  - split; [|done]. intros _ r Hr. by apply elem_of_nil in Hr.
  - destruct (dateRangeClash s e _ _) eqn:Hx.
    + split; [done|]. intros H. specialize (H x (list_elem_of_here _ _)).
      congruence.
    + rewrite IH. split.
      * intros H r Hr. apply elem_of_cons in Hr as [->|Hr]; auto.
      * intros H r Hr. apply H. by apply list_elem_of_further.
Qed.

Lemma loop_false s e (l : list Row) :
  isDateRangeAvailable_loop s e l = false ↔
  ∃ r, r ∈ l ∧
    dateRangeClash s e (checkInDate r.2)
      (getCheckoutDate (checkInDate r.2) (numberOfNights r.2)) = true.
Proof.
  induction l as [|x l IH]; simpl.
  - split; [done|]. intros (r & Hr & _). by apply elem_of_nil in Hr.
  - destruct (dateRangeClash s e _ _) eqn:Hx.
    + split; [|done]. intros _. exists x. split; [left|done].
    + rewrite IH. split.
      * intros (r & Hr & Hc). exists r. split; [by right|done].
      * intros (r & Hr & Hc). apply elem_of_cons in Hr as [->|Hr].
        -- congruence.
        -- by exists r.
Qed.

Lemma isDateRangeAvailable_true s n u (db : gmap positive Booking) :
  isDateRangeAvailable s n u db = true ↔
  ∀ i b, db !! i = Some b → unitID b = u →
    dateRangeClash s (getCheckoutDate s n) (checkInDate b)
      (getCheckoutDate (checkInDate b) (numberOfNights b)) = false.
Proof.
  unfold isDateRangeAvailable. cbv zeta. rewrite loop_true. split.
  - intros H i b Hib Hu. apply (H (i, b)). by apply getAllBookingsOnUnit_elem.
  - intros H [i b] Hr. apply getAllBookingsOnUnit_elem in Hr as [Hib Hu].
    by apply (H i).
Qed.

Lemma isDateRangeAvailable_false s n u (db : gmap positive Booking) :
  isDateRangeAvailable s n u db = false ↔
  ∃ i b, db !! i = Some b ∧ unitID b = u ∧
    dateRangeClash s (getCheckoutDate s n) (checkInDate b)
      (getCheckoutDate (checkInDate b) (numberOfNights b)) = true.
Proof.
  unfold isDateRangeAvailable. cbv zeta. rewrite loop_false. split.
  - intros ([i b] & Hr & Hc). apply getAllBookingsOnUnit_elem in Hr as [Hib Hu].
    by exists i, b.
  - intros (i & b & Hib & Hu & Hc). exists (i, b).
    split; [by apply getAllBookingsOnUnit_elem|done].
Qed.

Lemma nextId_fresh (db : gmap positive Booking) : db !! prisma.nextId db = None.
Proof. unfold prisma.nextId. apply not_elem_of_dom. apply is_fresh. Qed.

Lemma booking_eta (b : Booking) :
  mkBooking (guestName b) (unitID b) (checkInDate b) (numberOfNights b) = b.
Proof. by destruct b. Qed.

(** ** Rejections of [createBooking] *)

(** C3. When some stored reservation has the guest and the unit of the
    request, [createBooking] answers 400 with the reason that the guest
    cannot book the same unit multiple times and leaves the table as it
    was; the dates play no part, and the reason of check 1 is the one given
    although the condition of check 2 holds as well. *)
Theorem createBooking_same_guest_same_unit
  (booking : Booking) (db : gmap positive Booking) :
  (∃ i b, db !! i = Some b ∧ guestName b = guestName booking
          ∧ unitID b = unitID booking) →
  createBooking booking db = (Respond 400 (Text reason_sameUnit), db).
Proof.
  intros (i & b & Hib & Hg & Hu).
  unfold createBooking, isBookingPossible. cbv zeta.
  set (l := prisma.findMany _ db).
  assert ((0 <? length l)%nat = true) as ->; [|done].
  apply length_pos_true. apply (elem_of_not_nil (i, b)).
  apply findMany_elem. simpl. split; [done|].
  by rewrite !bool_decide_eq_true_2.
Qed.

Lemma createBooking_same_guest_same_unit_witness :
  createBooking Ex.again Ex.db1 = (Respond 400 (Text reason_sameUnit), Ex.db1).
Proof.
  apply (createBooking_same_guest_same_unit Ex.again Ex.db1).
  exists 1%positive, Ex.stay. split; [reflexivity|]. split; reflexivity.
Defined.

(** C4. When the guest of the request has a stored reservation, but none
    for the unit of the request, [createBooking] answers 400 with the
    reason that the guest cannot be in multiple units at the same time and
    leaves the table as it was, whatever the dates. *)
Theorem createBooking_guest_elsewhere
  (booking : Booking) (db : gmap positive Booking) :
  (∃ i b, db !! i = Some b ∧ guestName b = guestName booking) →
  (∀ i b, db !! i = Some b → guestName b = guestName booking →
          unitID b ≠ unitID booking) →
  createBooking booking db = (Respond 400 (Text reason_multipleUnits), db).
Proof.
  intros (i & b & Hib & Hg) Hnone.
  unfold createBooking, isBookingPossible. cbv zeta.
  set (l1 := prisma.findMany _ db).
  assert ((0 <? length l1)%nat = false) as ->.
  { apply length_pos_false. apply findMany_nil. intros j c Hjc. simpl.
    apply andb_false_iff.
    destruct (decide (guestName c = guestName booking)) as [Hc|Hc].
    - right. apply bool_decide_eq_false_2. by apply (Hnone j).
    - left. by apply bool_decide_eq_false_2. }
  set (l2 := prisma.findMany _ db).
  assert ((0 <? length l2)%nat = true) as ->; [|done].
  apply length_pos_true. apply (elem_of_not_nil (i, b)).
  apply findMany_elem. simpl. split; [done|].
  by rewrite bool_decide_eq_true_2.
Qed.

Lemma createBooking_guest_elsewhere_witness :
  createBooking Ex.elsewhere Ex.db1
  = (Respond 400 (Text reason_multipleUnits), Ex.db1).
Proof.
  apply (createBooking_guest_elsewhere Ex.elsewhere Ex.db1).
  - exists 1%positive, Ex.stay. split; reflexivity.
  - intros i b Hib _. unfold Ex.db1 in Hib.
    apply lookup_singleton_Some in Hib as [_ <-]. done.
Defined.

(** ** The two ways [createBooking] can end *)

Lemma check1_passes (booking : Booking) (db : gmap positive Booking) :
  noStayOfGuest (guestName booking) db →
  prisma.findMany
    (λ r, bool_decide (guestName r.2 = guestName booking)
          && bool_decide (unitID r.2 = unitID booking)) db = [].
Proof.
  intros Hg. apply findMany_nil. intros j b Hjb. simpl.
  apply andb_false_iff. left. apply bool_decide_eq_false_2. by apply (Hg j).
Qed.

Lemma check2_passes (booking : Booking) (db : gmap positive Booking) :
  noStayOfGuest (guestName booking) db ↔
  prisma.findMany (λ r, bool_decide (guestName r.2 = guestName booking)) db = [].
Proof.
  rewrite findMany_nil. unfold noStayOfGuest. simpl. split.
  - intros Hg j b Hjb. apply bool_decide_eq_false_2. by apply (Hg j).
  - intros Hg j b Hjb. specialize (Hg j b Hjb).
    by apply bool_decide_eq_false in Hg.
Qed.

Lemma createBooking_accepts (booking : Booking) (db : gmap positive Booking) :
  noStayOfGuest (guestName booking) db →
  noClashOnUnit (checkInDate booking) (numberOfNights booking) (unitID booking) db →
  createBooking booking db
  = (Respond 200 (Json (prisma.nextId db, booking)),
     <[prisma.nextId db := booking]> db).
Proof.
  intros Hg Hc. unfold createBooking, isBookingPossible. cbv zeta.
  rewrite (check1_passes booking db Hg).
  rewrite (proj1 (check2_passes booking db) Hg). simpl.
  assert (isDateRangeAvailable (checkInDate booking) (numberOfNights booking)
            (unitID booking) db = true) as ->
    by by apply isDateRangeAvailable_true.
  unfold prisma.create. rewrite booking_eta.
  by destruct (0 <? length _)%nat.
Qed.

Lemma createBooking_occupied (booking : Booking) (db : gmap positive Booking) :
  noStayOfGuest (guestName booking) db →
  (∃ j b, db !! j = Some b ∧ unitID b = unitID booking ∧
     dateRangeClash (checkInDate booking)
       (getCheckoutDate (checkInDate booking) (numberOfNights booking))
       (checkInDate b)
       (getCheckoutDate (checkInDate b) (numberOfNights b)) = true) →
  createBooking booking db = (Respond 400 (Text reason_occupied), db).
Proof.
  intros Hg (j & b & Hjb & Hu & Hc).
  unfold createBooking, isBookingPossible. cbv zeta.
  rewrite (check1_passes booking db Hg).
  rewrite (proj1 (check2_passes booking db) Hg). simpl.
  assert ((0 <? length (getAllBookingsOnUnit (unitID booking) db))%nat = true)
    as ->.
  { apply length_pos_true. apply (elem_of_not_nil (j, b)).
    by apply getAllBookingsOnUnit_elem. }
  assert (isDateRangeAvailable (checkInDate booking) (numberOfNights booking)
            (unitID booking) db = false) as ->; [|done].
  apply isDateRangeAvailable_false. by exists j, b.
Qed.

Lemma createBooking_inv (booking : Booking) (db db' : gmap positive Booking) out :
  createBooking booking db = (out, db') →
  (db' = db ∧ ∃ r, out = Respond 400 (Text r) ∧
     (r = reason_sameUnit ∨ r = reason_multipleUnits ∨ r = reason_occupied))
  ∨ (out = Respond 200 (Json (prisma.nextId db, booking))
     ∧ db' = <[prisma.nextId db := booking]> db
     ∧ noStayOfGuest (guestName booking) db
     ∧ noClashOnUnit (checkInDate booking) (numberOfNights booking)
         (unitID booking) db).
Proof.
  unfold createBooking, isBookingPossible. cbv zeta.
  destruct (0 <? length (prisma.findMany _ db))%nat eqn:H1; simpl.
  { intros [= <- <-]. left. split; [done|]. eexists; split; [done|]. auto. }
  destruct (0 <? length (prisma.findMany
     (λ r, bool_decide (guestName r.2 = guestName booking)) db))%nat eqn:H2; simpl.
  { intros [= <- <-]. left. split; [done|]. eexists; split; [done|]. auto. }
  apply length_pos_false in H2. apply check2_passes in H2.
  destruct (isDateRangeAvailable (checkInDate booking) (numberOfNights booking)
              (unitID booking) db) eqn:H3.
  - pose proof (proj1 (isDateRangeAvailable_true _ _ _ _) H3) as Hc.
    intros Heq. right.
    destruct (0 <? length (getAllBookingsOnUnit (unitID booking) db))%nat;
      simpl in Heq; rewrite booking_eta in Heq;
      injection Heq as <- <-; done.
  - destruct (0 <? length (getAllBookingsOnUnit (unitID booking) db))%nat eqn:H0;
      simpl.
    + intros [= <- <-]. left. split; [done|]. eexists; split; [done|]. auto.
    + unfold prisma.create. rewrite booking_eta. intros [= <- <-]. right.
      do 3 (split; [done|]). intros j b Hjb Hu.
      apply length_pos_false in H0.
      assert ((j, b) ∈ getAllBookingsOnUnit (unitID booking) db) as Hin
        by by apply getAllBookingsOnUnit_elem.
      rewrite H0 in Hin. by apply elem_of_nil in Hin.
Qed.


(** C5. Unit U holds the reservation with check-in 2024-03-01 and five
    nights, and no other; a guest without any stored reservation asks for
    U.  From 2024-03-06 for three nights the request is accepted and
    stored (the intervals are exactly adjacent); for 2024-03-05 and one
    night it is rejected with the reason that the unit is occupied. *)
Theorem march_adjacent_accepted_last_night_rejected
  (guest other unit : string) (i : positive) (db : gmap positive Booking) :
  db !! i = Some (mkBooking guest unit (Date.ofYMD 2024 3 1) 5) →
  (∀ j b, db !! j = Some b → unitID b = unit → j = i) →
  noStayOfGuest other db →
  createBooking (mkBooking other unit (Date.ofYMD 2024 3 6) 3) db
  = (Respond 200
       (Json (prisma.nextId db, mkBooking other unit (Date.ofYMD 2024 3 6) 3)),
     <[prisma.nextId db := mkBooking other unit (Date.ofYMD 2024 3 6) 3]> db)
  ∧ createBooking (mkBooking other unit (Date.ofYMD 2024 3 5) 1) db
    = (Respond 400 (Text reason_occupied), db).
Proof.
  intros Hi Honly Hother. split.
  - apply createBooking_accepts; [done|]. simpl. intros j b Hjb Hu.
    assert (j = i) as -> by by apply (Honly j b).
    rewrite Hi in Hjb. injection Hjb as <-. reflexivity.
  - apply createBooking_occupied; [done|]. simpl.
    eexists i, _. split; [exact Hi|]. split; reflexivity.
Qed.

Lemma march_adjacent_accepted_last_night_rejected_witness :
  createBooking Ex.adjacent Ex.db1
  = (Respond 200 (Json (prisma.nextId Ex.db1, Ex.adjacent)),
     <[prisma.nextId Ex.db1 := Ex.adjacent]> Ex.db1)
  ∧ createBooking Ex.lastNight Ex.db1
    = (Respond 400 (Text reason_occupied), Ex.db1).
Proof.
  apply (march_adjacent_accepted_last_night_rejected
           "alice" "bob" "U" 1%positive Ex.db1).
  - reflexivity.
  - intros j b Hjb _. unfold Ex.db1 in Hjb.
    by apply lookup_singleton_Some in Hjb as [<- _].
  - intros j b Hjb. unfold Ex.db1 in Hjb.
    by apply lookup_singleton_Some in Hjb as [_ <-].
Defined.

(** ** Requests without a positive nights count *)

(** C9, as the specification states it, fails: a request for zero nights
    on the empty table is answered 200 and stored. *)
Lemma zero_nights_request_is_persisted :
  numberOfNights Ex.zeroNights ≤ 0
  ∧ createBooking Ex.zeroNights ∅
    = (Respond 200 (Json (1%positive, Ex.zeroNights)),
       {[1%positive := Ex.zeroNights]}).
Proof. split; [done|]. vm_compute. reflexivity. Qed.

(** C9. A request whose nights count is not positive goes through the
    three checks like any other and no failure is raised: the handler
    answers either 400 with one of the three reasons, the table left as it
    was, or 200 with the request stored as a new reservation; it is stored
    whenever the guest holds no stored reservation and the unit has none,
    and the table then holds a reservation without a positive nights
    count. *)
Theorem createBooking_nonpositive_nights
  (booking : Booking) (db : gmap positive Booking) :
  numberOfNights booking ≤ 0 →
  ((∃ r, createBooking booking db = (Respond 400 (Text r), db)
         ∧ (r = reason_sameUnit ∨ r = reason_multipleUnits
            ∨ r = reason_occupied))
   ∨ createBooking booking db
     = (Respond 200 (Json (prisma.nextId db, booking)),
        <[prisma.nextId db := booking]> db))
  ∧ (noStayOfGuest (guestName booking) db →
     (∀ j b, db !! j = Some b → unitID b ≠ unitID booking) →
     createBooking booking db
     = (Respond 200 (Json (prisma.nextId db, booking)),
        <[prisma.nextId db := booking]> db)
     ∧ ¬ nightsPositive (createBooking booking db).2).
Proof.
  intros Hn. split.
  - destruct (createBooking booking db) as [out db'] eqn:Heq.
    apply createBooking_inv in Heq as [[-> (r & -> & Hr)]|(-> & -> & _)].
    + left. by exists r.
    + by right.
  - intros Hg Hu.
    assert (createBooking booking db
            = (Respond 200 (Json (prisma.nextId db, booking)),
               <[prisma.nextId db := booking]> db)) as Hok.
    { apply createBooking_accepts; [done|].
      intros j b Hjb Hub. by destruct (Hu j b). }
    split; [done|]. rewrite Hok. simpl. intros Hp.
    specialize (Hp (prisma.nextId db) booking (lookup_insert_eq _ _ _)). lia.
Qed.

Lemma createBooking_nonpositive_nights_witness :
  createBooking Ex.zeroNights Ex.db1
  = (Respond 200 (Json (prisma.nextId Ex.db1, Ex.zeroNights)),
     <[prisma.nextId Ex.db1 := Ex.zeroNights]> Ex.db1)
  ∧ ¬ nightsPositive (createBooking Ex.zeroNights Ex.db1).2.
Proof.
  apply (createBooking_nonpositive_nights Ex.zeroNights Ex.db1).
  - done.
  - intros j b Hjb. unfold Ex.db1 in Hjb.
    by apply lookup_singleton_Some in Hjb as [_ <-].
  - intros j b Hjb. unfold Ex.db1 in Hjb.
    by apply lookup_singleton_Some in Hjb as [_ <-].
Defined.

(** ** [extendBooking] *)

Lemma findActiveBooking_Some extend (db : gmap positive Booking) (r : Row) :
  findActiveBooking extend db = Some r →
  db !! r.1 = Some r.2 ∧ guestName r.2 = ext_guestName extend
  ∧ unitID r.2 = ext_unitID extend.
Proof.
  intros H. apply findFirst_Some in H as [Hl Hp].
  apply andb_true_iff in Hp as [Hg Hu].
  by apply bool_decide_eq_true in Hg, Hu.
Qed.

Lemma findActiveBooking_None extend (db : gmap positive Booking) :
  findActiveBooking extend db = None ↔
  ∀ i b, db !! i = Some b →
    ¬ (guestName b = ext_guestName extend ∧ unitID b = ext_unitID extend).
Proof.
  unfold findActiveBooking. rewrite findFirst_None. simpl.
  split; intros H i b Hib; specialize (H i b Hib).
  - intros [Hg Hu]. by rewrite !bool_decide_eq_true_2 in H.
  - apply andb_false_iff.
    destruct (decide (guestName b = ext_guestName extend)) as [Hg|Hg];
      [right|left]; apply bool_decide_eq_false_2; tauto.
Qed.

(** Once the query has found a row, the handler ends in one of two ways,
    and [prisma.update] finds the row it is asked to change. *)
Lemma extendBooking_found extend (db : gmap positive Booking) (r : Row) :
  findActiveBooking extend db = Some r →
  extendBooking extend db =
    if isDateRangeAvailable
         (getCheckoutDate (checkInDate r.2) (numberOfNights r.2))
         (ext_numberOfNights extend) (ext_unitID extend) db
    then
      let b' := setNights r.2 (numberOfNights r.2 + ext_numberOfNights extend) in
      (Respond 200 (Json (r.1, b')), <[r.1 := b']> db)
    else (Respond 400 (Text reason_extend), db).
Proof.
  intros H. unfold extendBooking. rewrite H.
  apply findActiveBooking_Some in H as (Hl & _ & _).
  destruct (isDateRangeAvailable _ _ _ db); simpl; [|done].
  unfold prisma.update, row_id. by rewrite Hl.
Qed.

(** C7. When no stored reservation has both the guest and the unit of the
    extension request, [extendBooking] answers 400 with the reason that no
    active booking was found and leaves the table as it was, whatever else
    is stored. *)
Theorem extendBooking_no_active_booking
  (extend : ExtendedBooking) (db : gmap positive Booking) :
  (∀ i b, db !! i = Some b →
     ¬ (guestName b = ext_guestName extend ∧ unitID b = ext_unitID extend)) →
  extendBooking extend db = (Respond 400 (Text reason_noActive), db).
Proof.
  intros H. apply findActiveBooking_None in H.
  unfold extendBooking. by rewrite H.
Qed.

Lemma extendBooking_no_active_booking_witness :
  extendBooking Ex.extendBob Ex.db2 = (Respond 400 (Text reason_noActive), Ex.db2).
Proof.
  apply (extendBooking_no_active_booking Ex.extendBob Ex.db2).
  intros i b Hib [Hg _]. unfold Ex.db2, Ex.db1 in Hib.
  apply lookup_insert_Some in Hib as [[_ <-]|[_ Hib]]; [done|].
  by apply lookup_singleton_Some in Hib as [_ <-].
Defined.

(** The comparison of a reservation with the interval that starts at its
    own checkout. *)
Lemma self_clash_false (d n k : Z) :
  1 ≤ n → 1 ≤ k →
  dateRangeClash (getCheckoutDate d n)
    (getCheckoutDate (getCheckoutDate d n) k) d (getCheckoutDate d n) = false.
Proof.
  intros Hn Hk. pose proof msPerDay_pos.
  destruct (getCheckoutDate d n) as [c|] eqn:Hc.
  2: { apply dateRangeClash_start_invalid. }
  apply getCheckoutDate_Some in Hc as [-> _].
  change (Some ?x) with (Date.valid x).
  apply not_true_is_false.
  destruct (getCheckoutDate (Date.valid _) k) as [e|] eqn:He.
  - apply getCheckoutDate_Some in He as [-> _].
    change (Some ?x) with (Date.valid x). rewrite dateRangeClash_true. nia.
  - rewrite dateRangeClash_end_invalid_true. nia.
Qed.





(** C8. When [extendBooking] answers 200, the table differs from the one
    before in one row only, the one matched by guest and unit: its nights
    count has grown by exactly the requested number, its guest, unit and
    check-in date are as before, and every other row is as before; the row
    is also the body of the answer. *)
Theorem extendBooking_changes_only_nights
  (extend : ExtendedBooking) (db db' : gmap positive Booking) (body : Body) :
  extendBooking extend db = (Respond 200 body, db') →
  ∃ i b b',
    db !! i = Some b
    ∧ guestName b = ext_guestName extend ∧ unitID b = ext_unitID extend
    ∧ db' !! i = Some b'
    ∧ numberOfNights b' = numberOfNights b + ext_numberOfNights extend
    ∧ checkInDate b' = checkInDate b
    ∧ guestName b' = guestName b
    ∧ unitID b' = unitID b
    ∧ (∀ j, j ≠ i → db' !! j = db !! j)
    ∧ body = Json (i, b').
Proof.
  destruct (findActiveBooking extend db) as [[i b]|] eqn:Hfound.
  - rewrite (extendBooking_found extend db _ Hfound). simpl.
    apply findActiveBooking_Some in Hfound as (Hl & Hg & Hu). simpl in *.
    destruct (isDateRangeAvailable _ _ _ db); [|done].
    intros [= <- <-].
    exists i, b, (setNights b (numberOfNights b + ext_numberOfNights extend)).
    split; [done|]. split; [done|]. split; [done|].
    split; [apply lookup_insert_eq|].
    do 4 (split; [done|]).
    split; [|done]. intros j Hj. by apply lookup_insert_ne.
  - unfold extendBooking. rewrite Hfound. done.
Qed.

Lemma extendBooking_changes_only_nights_witness :
  ∃ i b b',
    Ex.db1 !! i = Some b
    ∧ guestName b = "alice" ∧ unitID b = "U"
    ∧ <[1%positive := setNights Ex.stay 8]> Ex.db1 !! i = Some b'
    ∧ numberOfNights b' = numberOfNights b + 3
    ∧ checkInDate b' = checkInDate b
    ∧ guestName b' = guestName b
    ∧ unitID b' = unitID b
    ∧ (∀ j, j ≠ i →
         <[1%positive := setNights Ex.stay 8]> Ex.db1 !! j = Ex.db1 !! j)
    ∧ Json (1%positive, setNights Ex.stay 8) = Json (i, b').
Proof.
  apply (extendBooking_changes_only_nights Ex.extendAlice Ex.db1
           (<[1%positive := setNights Ex.stay 8]> Ex.db1)
           (Json (1%positive, setNights Ex.stay 8))).
  vm_compute. reflexivity.
Defined.

(** C6, as stated, fails: from the empty table a stay of zero nights on
    2024-03-06 and then two nights from 2024-03-01 are booked on unit U;
    the extension of the second by three nights is rejected with the
    extend reason although the only other reservation of the unit, being
    empty, overlaps nothing. *)
Lemma extension_rejected_without_other_overlap :
  findActiveBooking Ex.extendAlice (serve Ex.zeroFirst ∅)
  = Some (2%positive, Ex.short)
  ∧ 1 ≤ numberOfNights Ex.short ∧ 1 ≤ ext_numberOfNights Ex.extendAlice
  ∧ (extendBooking Ex.extendAlice (serve Ex.zeroFirst ∅)).1
    = Respond 400 (Text reason_extend)
  ∧ ¬ ∃ i b, serve Ex.zeroFirst ∅ !! i = Some b ∧ unitID b = "U"
        ∧ i ≠ 2%positive
        ∧ intervalsOverlap (checkOut Ex.short) 3
            (checkInDate b) (numberOfNights b) = true.
Proof.
  assert (serve Ex.zeroFirst ∅
          = <[2%positive := Ex.short]> {[1%positive := Ex.empty]}) as Hdb
    by (vm_compute; reflexivity).
  split; [by vm_compute|]. split; [simpl; lia|]. split; [simpl; lia|].
  split; [by vm_compute|].
  rewrite Hdb. intros (i & b & Hib & _ & Hne & Hov).
  apply lookup_insert_Some in Hib as [[<- _]|[_ Hib]]; [done|].
  apply lookup_singleton_Some in Hib as [_ <-].
  vm_compute in Hov. discriminate Hov.
Qed.

(** C6. The guest has a stored reservation for the unit, of at least one
    night, and at least one night is asked for; the stored reservations of
    the unit last at least one night each and have valid checkout dates,
    and the extended checkout date is a valid date.  Then [extendBooking]
    answers 400 with the reason that the extension is not possible exactly
    when some stored reservation of the unit, other than the one being
    extended, overlaps the interval from the current checkout of the
    requested length; the reservation being extended is in the comparison
    set and never causes the rejection. *)
Theorem extendBooking_rejects_iff_other_overlaps
  (extend : ExtendedBooking) (db : gmap positive Booking) (r : Row) :
  findActiveBooking extend db = Some r →
  1 ≤ numberOfNights r.2 → 1 ≤ ext_numberOfNights extend →
  (∀ i b, db !! i = Some b → unitID b = ext_unitID extend →
          1 ≤ numberOfNights b
          ∧ is_Some (getCheckoutDate (checkInDate b) (numberOfNights b))) →
  is_Some (getCheckoutDate (checkInDate r.2)
             (numberOfNights r.2 + ext_numberOfNights extend)) →
  (extendBooking extend db).1 = Respond 400 (Text reason_extend)
  ↔ ∃ i b, db !! i = Some b ∧ unitID b = ext_unitID extend ∧ i ≠ r.1
      ∧ intervalsOverlap (checkOut r.2) (ext_numberOfNights extend)
          (checkInDate b) (numberOfNights b) = true.
Proof.
  intros Hfound Hn Hk Hpos Hext.
  rewrite (extendBooking_found extend db r Hfound).
  apply findActiveBooking_Some in Hfound as (Hl & _ & Hu).
  destruct (Hpos _ _ Hl Hu) as [_ Hc].
  apply getCheckoutDate_is_Some in Hc.
  assert (is_Some (getCheckoutDate (Date.valid (checkOut r.2))
                     (ext_numberOfNights extend))) as Hcand.
  { apply getCheckoutDate_is_Some. apply getCheckoutDate_is_Some in Hext.
    unfold checkOut.
    by replace (checkInDate r.2 + numberOfNights r.2 * Date.msPerDay
                + ext_numberOfNights extend * Date.msPerDay)
      with (checkInDate r.2
            + (numberOfNights r.2 + ext_numberOfNights extend) * Date.msPerDay)
      by lia. }
  pose proof (self_clash_false (checkInDate r.2) _ _ Hn Hk) as Hself.
  rewrite (getCheckoutDate_inRange _ _ Hc) in Hself |- *.
  fold (checkOut r.2) in Hself |- *.
  destruct (isDateRangeAvailable _ _ _ db) eqn:Hav; simpl.
  - split; [done|]. intros (i & b & Hib & Hub & _ & Hov).
    destruct (Hpos i b Hib Hub) as [_ Hvb].
    apply overlap_clash in Hov; [|done|done].
    rewrite isDateRangeAvailable_true in Hav.
    rewrite (Hav i b Hib Hub) in Hov. done.
  - split; [|done]. intros _.
    apply isDateRangeAvailable_false in Hav as (i & b & Hib & Hub & Hclash).
    exists i, b. split; [done|]. split; [done|]. split.
    + intros ->. rewrite Hl in Hib. injection Hib as <-.
      rewrite (getCheckoutDate_inRange _ _ Hc) in Hclash.
      fold (checkOut r.2) in Hclash. by rewrite Hself in Hclash.
    + apply clash_overlap; [done| |done]. by apply (Hpos i).
Qed.

Lemma extendBooking_rejects_iff_other_overlaps_witness :
  (extendBooking Ex.extendAlice Ex.db2).1 = Respond 400 (Text reason_extend)
  ↔ ∃ i b, Ex.db2 !! i = Some b ∧ unitID b = "U" ∧ i ≠ 1%positive
      ∧ intervalsOverlap (checkOut Ex.stay) 3
          (checkInDate b) (numberOfNights b) = true.
Proof.
  apply (extendBooking_rejects_iff_other_overlaps Ex.extendAlice Ex.db2
           (1%positive, Ex.stay)).
  - vm_compute. reflexivity.
  - simpl. lia.
  - simpl. lia.
  - intros i b Hib _. unfold Ex.db2, Ex.db1 in Hib.
    apply lookup_insert_Some in Hib as [[_ <-]|[_ Hib]].
    + split; [simpl; lia|]. eexists. vm_compute. reflexivity.
    + apply lookup_singleton_Some in Hib as [_ <-].
      split; [simpl; lia|]. eexists. vm_compute. reflexivity.
  - eexists. vm_compute. reflexivity.
Defined.

(** ** The store invariants *)

Lemma intervalsOverlap_sym s n s' n' :
  intervalsOverlap s n s' n' = intervalsOverlap s' n' s n.
Proof. unfold intervalsOverlap. cbv zeta. apply andb_comm. Qed.

Lemma no_clash_no_overlap (s n s' n' : Z) :
  is_Some (getCheckoutDate s n) → is_Some (getCheckoutDate s' n') →
  dateRangeClash s (getCheckoutDate s n) s' (getCheckoutDate s' n') = false →
  intervalsOverlap s n s' n' = false.
Proof.
  intros Hv Hv' Hc. apply not_true_is_false. intros Ho.
  apply overlap_clash in Ho; [congruence|done|done].
Qed.

(** A stay that is free of [b'] and whose extension is free of [b'] is,
    once extended, free of [b']. *)
Lemma extended_stay_disjoint d n k s' n' :
  1 ≤ n' →
  intervalsOverlap d n s' n' = false →
  intervalsOverlap (d + n * Date.msPerDay) k s' n' = false →
  intervalsOverlap d (n + k) s' n' = false.
Proof.
  intros Hn' H1 H2. apply not_true_is_false. intros H3.
  apply not_true_iff_false in H1, H2.
  rewrite intervalsOverlap_true in H1, H2, H3.
  unfold Date.msPerDay in *. lia.
Qed.


(** A reservation of at least one night that leaves [slack] nights of
    room below [maxTime] has a valid checkout date. *)
Lemma withinRange_valid slack (db : gmap positive Booking) i b :
  0 ≤ slack → withinRange slack db → db !! i = Some b →
  1 ≤ numberOfNights b →
  is_Some (getCheckoutDate (checkInDate b) (numberOfNights b)).
Proof.
  intros Hs Hr Hib Hn. destruct (Hr i b Hib) as [Hlo Hhi].
  apply getCheckoutDate_is_Some. unfold Date.inRange, Date.msPerDay in *.
  lia.
Qed.

Lemma withinRange_mono slack slack' (db : gmap positive Booking) :
  slack' ≤ slack → withinRange slack db → withinRange slack' db.
Proof.
  intros Hle Hr i b Hib. destruct (Hr i b Hib) as [Hlo Hhi].
  split; [done|]. unfold Date.msPerDay in *. lia.
Qed.

Lemma createBooking_consistent
  (booking : Booking) (db : gmap positive Booking) (slack : Z) :
  1 ≤ numberOfNights booking → 0 ≤ slack →
  requestFits (numberOfNights booking + slack) (CreateBooking booking) →
  consistent db → withinRange (numberOfNights booking + slack) db →
  consistent (createBooking booking db).2
  ∧ withinRange slack (createBooking booking db).2.
Proof.
  intros Hn Hs [Hlo Hhi] (Hd & Hg & Hp) Hr.
  assert (withinRange slack db) as Hr0
    by (apply (withinRange_mono (numberOfNights booking + slack)); [lia|done]).
  destruct (createBooking booking db) as [out db'] eqn:Heq. simpl.
  apply createBooking_inv in Heq as [[-> _]|(_ & -> & Hnone & Hfree)]; [done|].
  pose proof (nextId_fresh db) as Hnew.
  assert (is_Some (getCheckoutDate (checkInDate booking)
                     (numberOfNights booking))) as Hvalid.
  { apply getCheckoutDate_is_Some. unfold Date.inRange, Date.msPerDay in *.
    lia. }
  assert (∀ j bj, db !! j = Some bj → unitID bj = unitID booking →
            intervalsOverlap (checkInDate booking) (numberOfNights booking)
              (checkInDate bj) (numberOfNights bj) = false) as Hfree'.
  { intros j bj Hj Hu. apply no_clash_no_overlap; [done| |by apply (Hfree j)].
    apply (withinRange_valid slack db j); [done|done|done|by apply (Hp j)]. }
  split; [repeat split|].
  - intros i j bi bj Hi Hj Hij Hu.
    apply lookup_insert_Some in Hi as [[<- <-]|[Hi' Hi]];
      apply lookup_insert_Some in Hj as [[<- <-]|[Hj' Hj]]; try done.
    + by apply (Hfree' j).
    + rewrite intervalsOverlap_sym. by apply (Hfree' i).
    + by apply (Hd i j).
  - intros i j bi bj Hi Hj Hgn.
    apply lookup_insert_Some in Hi as [[<- <-]|[Hi' Hi]];
      apply lookup_insert_Some in Hj as [[<- <-]|[Hj' Hj]]; try done.
    + by destruct (Hnone j bj).
    + by destruct (Hnone i bi).
    + by apply (Hg i j bi bj).
  - intros i b Hi.
    apply lookup_insert_Some in Hi as [[<- <-]|[_ Hi]]; [done|].
    by apply (Hp i).
  - intros i b Hi.
    apply lookup_insert_Some in Hi as [[<- <-]|[_ Hi]]; [done|].
    by apply (Hr0 i).
Qed.

(** The rows of the table after [numberOfNights] of row [i] has been set:
    guest, unit and check-in date of every row are as before. *)
Lemma lookup_setNights (db : gmap positive Booking) i b m x bx :
  db !! i = Some b →
  <[i := setNights b m]> db !! x = Some bx →
  ∃ b0, db !! x = Some b0
        ∧ guestName bx = guestName b0 ∧ unitID bx = unitID b0
        ∧ checkInDate bx = checkInDate b0
        ∧ ((x = i ∧ b0 = b ∧ numberOfNights bx = m) ∨ (x ≠ i ∧ bx = b0)).
Proof.
  intros Hi Hx. apply lookup_insert_Some in Hx as [[<- <-]|[Hne Hx]].
  - exists b. simpl. do 4 (split; [done|]). by left.
  - exists bx. do 4 (split; [done|]). right. by split.
Qed.

Lemma extendBooking_consistent
  (extend : ExtendedBooking) (db : gmap positive Booking) (slack : Z) :
  1 ≤ ext_numberOfNights extend → 0 ≤ slack →
  consistent db → withinRange (ext_numberOfNights extend + slack) db →
  consistent (extendBooking extend db).2
  ∧ withinRange slack (extendBooking extend db).2.
Proof.
  intros Hk Hs (Hd & Hg & Hp) Hr.
  assert (withinRange slack db) as Hr0
    by (apply (withinRange_mono (ext_numberOfNights extend + slack));
        [lia|done]).
  destruct (findActiveBooking extend db) as [[i b]|] eqn:Hfound.
  2: { unfold extendBooking. by rewrite Hfound. }
  rewrite (extendBooking_found extend db _ Hfound). cbn [fst snd].
  apply findActiveBooking_Some in Hfound as (Hl & _ & Hu). simpl in Hl, Hu.
  set (k := ext_numberOfNights extend) in *.
  destruct (Hr i b Hl) as [Hlo Hhi]. pose proof (Hp i b Hl) as Hnb.
  assert (Date.inRange (checkOut b)) as Hc.
  { unfold checkOut, Date.inRange, Date.msPerDay in *. lia. }
  rewrite (getCheckoutDate_inRange _ _ Hc). fold (checkOut b).
  destruct (isDateRangeAvailable _ _ _ db) eqn:Hav; [|done]. simpl.
  rewrite isDateRangeAvailable_true in Hav.
  assert (is_Some (getCheckoutDate (Date.valid (checkOut b)) k)) as Hcand.
  { apply getCheckoutDate_is_Some.
    unfold checkOut, Date.inRange, Date.msPerDay in *. lia. }
  assert (∀ j bj, db !! j = Some bj → j ≠ i → unitID bj = unitID b →
            intervalsOverlap (checkInDate b) (numberOfNights b + k)
              (checkInDate bj) (numberOfNights bj) = false) as Hfree.
  { intros j bj Hj Hne Huj. apply extended_stay_disjoint.
    - by apply (Hp j).
    - by apply (Hd i j).
    - apply (no_clash_no_overlap (checkOut b)); [done| |].
      + apply (withinRange_valid slack db j); [done|done|done|by apply (Hp j)].
      + apply (Hav j); [done|]. congruence. }
  split; [repeat split|].
  - intros x y bx by_ Hx Hy Hxy Hxu.
    apply (lookup_setNights db i b _ x bx Hl) in Hx
      as (bx0 & Hx & _ & Hux & Hcx & Hcase_x).
    apply (lookup_setNights db i b _ y by_ Hl) in Hy
      as (by0 & Hy & _ & Huy & Hcy & Hcase_y).
    destruct Hcase_x as [(-> & -> & Hnx)|(Hxi & ->)];
      destruct Hcase_y as [(-> & -> & Hny)|(Hyi & ->)]; try done.
    + rewrite Hcx, Hnx. apply (Hfree y); [done|done|]. congruence.
    + rewrite intervalsOverlap_sym, Hcy, Hny.
      apply (Hfree x); [done|done|]. congruence.
    + by apply (Hd x y).
  - intros x y bx by_ Hx Hy Hgn.
    apply (lookup_setNights db i b _ x bx Hl) in Hx as (bx0 & Hx & Hgx & _).
    apply (lookup_setNights db i b _ y by_ Hl) in Hy as (by0 & Hy & Hgy & _).
    apply (Hg x y bx0 by0); [done|done|]. congruence.
  - intros x bx Hx.
    apply (lookup_setNights db i b _ x bx Hl) in Hx
      as (bx0 & Hx & _ & _ & _ & [(-> & -> & ->)|(_ & ->)]).
    + lia.
    + by apply (Hp x).
  - intros x bx Hx.
    apply (lookup_setNights db i b _ x bx Hl) in Hx
      as (bx0 & Hx & _ & _ & Hcx & [(-> & -> & Hnx)|(_ & ->)]).
    + rewrite Hcx, Hnx. split; [done|].
      replace (numberOfNights b + k + slack)
        with (numberOfNights b + (k + slack)) by lia. done.
    + by apply (Hr0 x).
Qed.

Lemma handle_consistent (req : Request) (db : gmap positive Booking) (slack : Z) :
  1 ≤ request_nights req → 0 ≤ slack →
  requestFits (request_nights req + slack) req →
  consistent db → withinRange (request_nights req + slack) db →
  consistent (handle req db).2 ∧ withinRange slack (handle req db).2.
Proof.
  destruct req; simpl.
  - apply createBooking_consistent.
  - intros Hk Hs _. by apply extendBooking_consistent.
Qed.

Lemma totalNights_nonneg (reqs : list Request) :
  Forall (λ req, 1 ≤ request_nights req) reqs → 0 ≤ totalNights reqs.
Proof. induction 1; simpl; lia. Qed.

Lemma requestFits_mono total total' (req : Request) :
  total' ≤ total → requestFits total req → requestFits total' req.
Proof.
  intros Hle. destruct req; simpl; [|done]. intros [Hlo Hhi].
  split; [done|]. unfold Date.msPerDay in *. lia.
Qed.

Lemma serve_consistent (reqs : list Request) (db : gmap positive Booking) (total : Z) :
  Forall (λ req, 1 ≤ request_nights req) reqs →
  Forall (requestFits total) reqs →
  totalNights reqs ≤ total →
  consistent db → withinRange (totalNights reqs) db →
  consistent (serve reqs db) ∧ withinRange 0 (serve reqs db).
Proof.
  intros Hreqs. revert db.
  induction Hreqs as [|req reqs Hreq Hrest IH]; intros db Hfit Htot Hdb Hr;
    simpl in *; [done|].
  apply Forall_cons in Hfit as [Hfit1 Hfit].
  pose proof (totalNights_nonneg reqs Hrest) as Hnn.
  destruct (handle_consistent req db (totalNights reqs)) as [Hc' Hr'];
    try done.
  { apply (requestFits_mono total); [lia|done]. }
  apply IH; [done|lia|done|done].
Qed.



(** ** Worked examples *)

Example ofYMD_2024_03_01 : Date.ofYMD 2024 3 1 = 1709251200000.
Proof. reflexivity. Qed.

Example ofYMD_epoch : Date.ofYMD 1970 1 1 = 0.
Proof. reflexivity. Qed.

Example getCheckoutDate_march :
  getCheckoutDate (Ex.march 1) 5 = Date.valid (Ex.march 6)
  ∧ getCheckoutDate (Date.ofYMD 2024 2 27) 5 = Date.valid (Ex.march 3).
Proof. split; reflexivity. Qed.

(** A hundred million nights from 2024-02-20 end on an Invalid Date, and
    so does every checkout computed from one; the last valid checkout from
    that day is 99980227 nights away. *)
Example getCheckoutDate_invalid :
  getCheckoutDate Ex.february20 100000000 = None
  ∧ getCheckoutDate (getCheckoutDate Ex.february20 100000000) 3 = None
  ∧ getCheckoutDate Ex.february20 99980227 = Date.valid Date.maxTime
  ∧ getCheckoutDate Ex.february20 99980228 = None.
Proof. repeat split; vm_compute; reflexivity. Qed.

(** The table of the run in which the second request ends on an Invalid
    Date holds both reservations. *)
Example overlong_table :
  map_to_list (serve Ex.overlong ∅)
  = [(2%positive, Ex.endless); (1%positive, Ex.stay)].
Proof. vm_compute. reflexivity. Qed.

(** Extending the five nights from 2024-03-01 by three: accepted when the
    unit holds nothing else, rejected when another reservation starts on
    the checkout day. *)
Example extend_alone :
  extendBooking Ex.extendAlice Ex.db1
  = (Respond 200 (Json (1%positive, setNights Ex.stay 8)),
     <[1%positive := setNights Ex.stay 8]> Ex.db1).
Proof. vm_compute. reflexivity. Qed.

Example extend_blocked :
  extendBooking Ex.extendAlice Ex.db2 = (Respond 400 (Text reason_extend), Ex.db2).
Proof. vm_compute. reflexivity. Qed.

(** A stored reservation of zero nights has an empty interval, which the
    half-open test never reports; the third disjunct of the comparison in
    [isDateRangeAvailable] fires on it all the same.  This is where the
    condition on the stored nights of the unit matters for extensions. *)
Example extend_blocked_by_empty_stay :
  extendBooking Ex.extendAlice Ex.db3 = (Respond 400 (Text reason_extend), Ex.db3)
  ∧ intervalsOverlap (checkOut Ex.stay) 3
      (checkInDate Ex.empty) (numberOfNights Ex.empty) = false.
Proof. split; vm_compute; reflexivity. Qed.

(** An extension whose end is an Invalid Date is accepted although the
    extended stay covers another reservation of the unit. *)
Example extend_past_date_range :
  extendBooking Ex.extendForever Ex.db4
  = (Respond 200 (Json (1%positive, setNights Ex.stay 100000005)),
     <[1%positive := setNights Ex.stay 100000005]> Ex.db4)
  ∧ intervalsOverlap (checkOut Ex.stay) 100000000
      (checkInDate Ex.nextYear) (numberOfNights Ex.nextYear) = true.
Proof. split; vm_compute; reflexivity. Qed.

Example session_table :
  map_to_list (serve Ex.session ∅)
  = [(2%positive, setNights Ex.adjacent 6); (1%positive, Ex.stay)].
Proof. vm_compute. reflexivity. Qed.

(** * Further properties of the controller *)

(** ** [isDateRangeAvailable] *)

(** X1. A unit without any stored reservation is available for every
    check-in date and every nights count, positive or not. *)
Theorem isDateRangeAvailable_free_unit
  (s : Date.t) (n : Z) (u : string) (db : gmap positive Booking) :
  (∀ i b, db !! i = Some b → unitID b ≠ u) →
  isDateRangeAvailable s n u db = true.
Proof.
  intros Hfree. apply isDateRangeAvailable_true.
  intros i b Hib Hu. by destruct (Hfree i b Hib).
Qed.

Lemma isDateRangeAvailable_free_unit_witness :
  isDateRangeAvailable (Ex.march 1) (-4) "V" Ex.db1 = true.
Proof.
  apply (isDateRangeAvailable_free_unit (Ex.march 1) (-4) "V" Ex.db1).
  intros i b Hib. unfold Ex.db1 in Hib.
  by apply lookup_singleton_Some in Hib as [_ <-].
Defined.

(** X2. What the loop of [isDateRangeAvailable] returns does not depend on
    the order in which the reservations of the unit are enumerated. *)
Theorem isDateRangeAvailable_loop_order (s e : Date.t) (l l' : list Row) :
  l ≡ₚ l' →
  isDateRangeAvailable_loop s e l = isDateRangeAvailable_loop s e l'.
Proof.
  intros Hperm. apply bool_eq_iff. rewrite !loop_true.
  split; intros H r Hr; apply H.
  - by rewrite Hperm.
  - by rewrite <- Hperm.
Qed.

Lemma isDateRangeAvailable_loop_order_witness :
  isDateRangeAvailable_loop (Ex.march 5) (Ex.march 6)
    [(1%positive, Ex.stay); (2%positive, Ex.later)]
  = isDateRangeAvailable_loop (Ex.march 5) (Ex.march 6)
      [(2%positive, Ex.later); (1%positive, Ex.stay)].
Proof.
  apply (isDateRangeAvailable_loop_order (Ex.march 5) (Ex.march 6)
           [(1%positive, Ex.stay); (2%positive, Ex.later)]
           [(2%positive, Ex.later); (1%positive, Ex.stay)]).
  apply perm_swap.
Defined.

(** X3. [isDateRangeAvailable] looks at the reservations of the given unit
    only: two tables with the same reservations of that unit give the same
    answer, whatever they hold for other units. *)
Theorem isDateRangeAvailable_unit_local
  (s : Date.t) (n : Z) (u : string) (db db' : gmap positive Booking) :
  (∀ i b, unitID b = u → db !! i = Some b ↔ db' !! i = Some b) →
  isDateRangeAvailable s n u db = isDateRangeAvailable s n u db'.
Proof.
  intros Hsame. apply bool_eq_iff. rewrite !isDateRangeAvailable_true.
  split; intros H i b Hib Hu; apply (H i b); try done.
  - by apply (Hsame i b Hu).
  - by apply (Hsame i b Hu).
Qed.

Lemma isDateRangeAvailable_unit_local_witness :
  isDateRangeAvailable (Ex.march 5) 1 "U" Ex.db1
  = isDateRangeAvailable (Ex.march 5) 1 "U" (<[3%positive := Ex.elsewhere]> Ex.db1).
Proof.
  apply (isDateRangeAvailable_unit_local (Ex.march 5) 1 "U" Ex.db1
           (<[3%positive := Ex.elsewhere]> Ex.db1)).
  intros i b Hu. rewrite lookup_insert_Some. unfold Ex.db1.
  rewrite lookup_singleton_Some. split.
  - intros [<- <-]. right. split; [done|]. done.
  - intros [[_ <-]|[_ H]]; [done|exact H].
Defined.

(** X4. When the checkout dates of the candidate and of the stored
    reservations of the unit are valid dates, then, whatever the nights
    counts, a candidate that [isDateRangeAvailable] lets through shares no
    day with any stored reservation of the unit. *)
Theorem isDateRangeAvailable_sound
  (s n : Z) (u : string) (db : gmap positive Booking) :
  is_Some (getCheckoutDate s n) →
  (∀ i b, db !! i = Some b → unitID b = u →
          is_Some (getCheckoutDate (checkInDate b) (numberOfNights b))) →
  isDateRangeAvailable s n u db = true →
  ∀ i b, db !! i = Some b → unitID b = u →
    intervalsOverlap s n (checkInDate b) (numberOfNights b) = false.
Proof.
  intros Hv Hvalid Hav i b Hib Hu.
  apply no_clash_no_overlap; [done|by apply (Hvalid i)|].
  rewrite isDateRangeAvailable_true in Hav. by apply (Hav i).
Qed.

Lemma isDateRangeAvailable_sound_witness :
  intervalsOverlap (Ex.march 10) 0
    (checkInDate Ex.empty) (numberOfNights Ex.empty) = false.
Proof.
  apply (isDateRangeAvailable_sound (Ex.march 10) 0 "U" Ex.db3
           ltac:(eexists; vm_compute; reflexivity)) with (i := 2%positive).
  - intros i b Hib _. unfold Ex.db3, Ex.db1 in Hib.
    apply lookup_insert_Some in Hib as [[_ <-]|[_ Hib]].
    + eexists. vm_compute. reflexivity.
    + apply lookup_singleton_Some in Hib as [_ <-].
      eexists. vm_compute. reflexivity.
  - vm_compute. reflexivity.
  - reflexivity.
  - reflexivity.
Defined.

(** X5. With at least one night asked for and at least one night in every
    stored reservation of the unit, and all their checkout dates valid
    dates, [isDateRangeAvailable] returns [true] exactly when no stored
    reservation of the unit overlaps the candidate interval in the
    half-open sense. *)
Theorem isDateRangeAvailable_iff_no_overlap
  (s n : Z) (u : string) (db : gmap positive Booking) :
  1 ≤ n → is_Some (getCheckoutDate s n) →
  (∀ i b, db !! i = Some b → unitID b = u →
          1 ≤ numberOfNights b
          ∧ is_Some (getCheckoutDate (checkInDate b) (numberOfNights b))) →
  isDateRangeAvailable s n u db = true
  ↔ ∀ i b, db !! i = Some b → unitID b = u →
      intervalsOverlap s n (checkInDate b) (numberOfNights b) = false.
Proof.
  intros Hn Hv Hpos. rewrite isDateRangeAvailable_true. split.
  - intros H i b Hib Hu. destruct (Hpos i b Hib Hu) as [_ Hvb].
    apply no_clash_no_overlap; [done|done|]. by apply (H i).
  - intros H i b Hib Hu. apply not_true_is_false. intros Hc.
    apply clash_overlap in Hc; [|done|by apply (Hpos i)].
    rewrite (H i b Hib Hu) in Hc. done.
Qed.

Lemma isDateRangeAvailable_iff_no_overlap_witness :
  isDateRangeAvailable (Ex.march 6) 3 "U" Ex.db1 = true
  ↔ ∀ i b, Ex.db1 !! i = Some b → unitID b = "U" →
      intervalsOverlap (Ex.march 6) 3 (checkInDate b) (numberOfNights b) = false.
Proof.
  apply (isDateRangeAvailable_iff_no_overlap (Ex.march 6) 3 "U" Ex.db1).
  - lia.
  - eexists. vm_compute. reflexivity.
  - intros i b Hib _. unfold Ex.db1 in Hib.
    apply lookup_singleton_Some in Hib as [_ <-].
    split; [simpl; lia|]. eexists. vm_compute. reflexivity.
Defined.

(** ** The decision of [isBookingPossible] *)

Lemma noStay_not_hasStay g (db : gmap positive Booking) :
  noStayOfGuest g db ↔ ¬ hasStay g db.
Proof.
  unfold noStayOfGuest, hasStay. split.
  - intros H (i & b & Hib & Hg). by apply (H i b).
  - intros H i b Hib Hg. apply H. by exists i, b.
Qed.

Lemma noClash_not_clash s n u (db : gmap positive Booking) :
  noClashOnUnit s n u db ↔ ¬ clashOnUnit s n u db.
Proof.
  unfold noClashOnUnit, clashOnUnit. split.
  - intros H (j & b & Hjb & Hu & Hc). rewrite (H j b Hjb Hu) in Hc. done.
  - intros H j b Hjb Hu. apply not_true_is_false. intros Hc.
    apply H. by exists j, b.
Qed.

Lemma hasStayOnUnit_hasStay g u (db : gmap positive Booking) :
  hasStayOnUnit g u db → hasStay g db.
Proof. intros (i & b & Hib & Hg & _). by exists i, b. Qed.

(** The four ways through the checks, each with the condition on the
    table under which it is taken. *)
Lemma isBookingPossible_cases (booking : Booking) (db : gmap positive Booking) :
  (hasStayOnUnit (guestName booking) (unitID booking) db
   ∧ isBookingPossible booking db = mkOutcome false reason_sameUnit)
  ∨ (hasStay (guestName booking) db
     ∧ ¬ hasStayOnUnit (guestName booking) (unitID booking) db
     ∧ isBookingPossible booking db = mkOutcome false reason_multipleUnits)
  ∨ (noStayOfGuest (guestName booking) db
     ∧ clashOnUnit (checkInDate booking) (numberOfNights booking)
         (unitID booking) db
     ∧ isBookingPossible booking db = mkOutcome false reason_occupied)
  ∨ (noStayOfGuest (guestName booking) db
     ∧ noClashOnUnit (checkInDate booking) (numberOfNights booking)
         (unitID booking) db
     ∧ isBookingPossible booking db = mkOutcome true "OK").
Proof.
  unfold isBookingPossible. cbv zeta.
  destruct (prisma.findMany
    (λ r, bool_decide (guestName r.2 = guestName booking)
          && bool_decide (unitID r.2 = unitID booking)) db)
    as [|[i b] l1] eqn:H1.
  2: { left. split; [|done].
       assert ((i, b) ∈ (i, b) :: l1) as Hin by left.
       rewrite <- H1 in Hin. apply findMany_elem in Hin as [Hib Hp].
       apply andb_true_iff in Hp as [Hg Hu].
       apply bool_decide_eq_true in Hg, Hu. by exists i, b. }
  right. simpl.
  assert (¬ hasStayOnUnit (guestName booking) (unitID booking) db) as Hno1.
  { intros (i & b & Hib & Hg & Hu).
    pose proof (proj1 (findMany_nil _ db) H1 i b Hib) as Hp. simpl in Hp.
    by rewrite !bool_decide_eq_true_2 in Hp. }
  destruct (prisma.findMany
    (λ r, bool_decide (guestName r.2 = guestName booking)) db)
    as [|[i b] l2] eqn:H2.
  2: { left. split; [|done].
       assert ((i, b) ∈ (i, b) :: l2) as Hin by left.
       rewrite <- H2 in Hin. apply findMany_elem in Hin as [Hib Hg].
       apply bool_decide_eq_true in Hg. by exists i, b. }
  right. simpl. apply check2_passes in H2.
  destruct (isDateRangeAvailable (checkInDate booking) (numberOfNights booking)
              (unitID booking) db) eqn:H3.
  - right. split; [done|]. split.
    + exact (proj1 (isDateRangeAvailable_true _ _ _ db) H3).
    + by destruct (0 <? length (getAllBookingsOnUnit _ db))%nat.
  - apply isDateRangeAvailable_false in H3 as (j & b & Hjb & Hu & Hc).
    left. split; [done|]. split; [by exists j, b|].
    assert ((0 <? length (getAllBookingsOnUnit (unitID booking) db))%nat = true)
      as ->; [|done].
    apply length_pos_true. apply (elem_of_not_nil (j, b)).
    by apply getAllBookingsOnUnit_elem.
Qed.

(** X6. [isBookingPossible] reports [result = true] exactly when the guest
    holds no stored reservation at all and no stored reservation of the
    unit makes the date comparison fire; and the reason is "OK" exactly
    when the result is [true]. *)
Theorem isBookingPossible_result (booking : Booking) (db : gmap positive Booking) :
  (result (isBookingPossible booking db) = true
   ↔ noStayOfGuest (guestName booking) db
     ∧ noClashOnUnit (checkInDate booking) (numberOfNights booking)
         (unitID booking) db)
  ∧ (reason (isBookingPossible booking db) = "OK"
     ↔ result (isBookingPossible booking db) = true).
Proof.
  destruct (isBookingPossible_cases booking db)
    as [(H1 & ->)|[(H2 & _ & ->)|[(Hg & Hc & ->)|(Hg & Hc & ->)]]]; simpl.
  - split; [|done]. split; [done|]. intros [Hg _].
    apply noStay_not_hasStay in Hg. destruct Hg.
    by apply (hasStayOnUnit_hasStay _ (unitID booking)).
  - split; [|done]. split; [done|]. intros [Hg _].
    by apply noStay_not_hasStay in Hg.
  - split; [|done]. split; [done|]. intros [_ Hn].
    by apply noClash_not_clash in Hn.
  - done.
Qed.

(** ** Answers of [createBooking] *)

Lemma createBooking_cases (booking : Booking) (db : gmap positive Booking) :
  (hasStayOnUnit (guestName booking) (unitID booking) db
   ∧ createBooking booking db = (Respond 400 (Text reason_sameUnit), db))
  ∨ (hasStay (guestName booking) db
     ∧ ¬ hasStayOnUnit (guestName booking) (unitID booking) db
     ∧ createBooking booking db = (Respond 400 (Text reason_multipleUnits), db))
  ∨ (noStayOfGuest (guestName booking) db
     ∧ clashOnUnit (checkInDate booking) (numberOfNights booking)
         (unitID booking) db
     ∧ createBooking booking db = (Respond 400 (Text reason_occupied), db))
  ∨ (noStayOfGuest (guestName booking) db
     ∧ noClashOnUnit (checkInDate booking) (numberOfNights booking)
         (unitID booking) db
     ∧ createBooking booking db
       = (Respond 200 (Json (prisma.nextId db, booking)),
          <[prisma.nextId db := booking]> db)).
Proof.
  unfold createBooking.
  destruct (isBookingPossible_cases booking db)
    as [(H1 & ->)|[(H2 & Hn & ->)|[(Hg & Hc & ->)|(Hg & Hc & ->)]]]; simpl.
  - by left.
  - right. by left.
  - right. right. by left.
  - right. right. right. by rewrite booking_eta.
Qed.

Lemma reasons_distinct :
  reason_sameUnit ≠ reason_multipleUnits
  ∧ reason_sameUnit ≠ reason_occupied
  ∧ reason_multipleUnits ≠ reason_occupied.
Proof. repeat split; discriminate. Qed.

(** X7. The reason in a 400 answer of [createBooking] tells which
    condition held on the table: the same-unit reason exactly when the
    guest holds a stored reservation of the requested unit; the
    multiple-units reason exactly when the guest holds a stored reservation
    but none of the requested unit; the occupied reason exactly when the
    guest holds none and a stored reservation of the unit makes the date
    comparison fire. *)
Theorem createBooking_reason_iff (booking : Booking) (db : gmap positive Booking) :
  ((createBooking booking db).1 = Respond 400 (Text reason_sameUnit)
   ↔ hasStayOnUnit (guestName booking) (unitID booking) db)
  ∧ ((createBooking booking db).1 = Respond 400 (Text reason_multipleUnits)
     ↔ hasStay (guestName booking) db
       ∧ ¬ hasStayOnUnit (guestName booking) (unitID booking) db)
  ∧ ((createBooking booking db).1 = Respond 400 (Text reason_occupied)
     ↔ noStayOfGuest (guestName booking) db
       ∧ clashOnUnit (checkInDate booking) (numberOfNights booking)
           (unitID booking) db).
Proof.
  destruct reasons_distinct as (D12 & D13 & D23).
  destruct (createBooking_cases booking db)
    as [(H1 & ->)|[(H2 & Hn & ->)|[(Hg & Hc & ->)|(Hg & Hc & ->)]]]; simpl.
  - pose proof (hasStayOnUnit_hasStay _ _ _ H1) as H2.
    repeat split; try done; try (intros [= ?]; done).
    + intros [_ ?]. done.
    + intros [Hg _]. by apply noStay_not_hasStay in Hg.
  - repeat split; try done; try (intros [= ?]; done).
    intros [Hg _]. by apply noStay_not_hasStay in Hg.
  - pose proof (proj1 (noStay_not_hasStay _ _) Hg) as Hng.
    repeat split; try done; try (intros [= ?]; done).
    + intros H1. destruct Hng. by apply (hasStayOnUnit_hasStay _ (unitID booking)).
    + intros [H2 _]. done.
  - pose proof (proj1 (noStay_not_hasStay _ _) Hg) as Hng.
    pose proof (proj1 (noClash_not_clash _ _ _ _) Hc) as Hnc.
    repeat split; try done.
    + intros H1. destruct Hng. by apply (hasStayOnUnit_hasStay _ (unitID booking)).
    + intros [H2 _]. done.
    + intros [_ ?]. done.
Qed.

(** X8. When [createBooking] answers 200, the body is the request under an
    identifier that was not in use, the table holds the request unchanged
    under that identifier, and every other identifier maps to what it
    mapped to before. *)
Theorem createBooking_stores_request
  (booking : Booking) (db db' : gmap positive Booking) (body : Body) :
  createBooking booking db = (Respond 200 body, db') →
  ∃ i, body = Json (i, booking)
       ∧ db !! i = None
       ∧ db' !! i = Some booking
       ∧ ∀ j, j ≠ i → db' !! j = db !! j.
Proof.
  intros Heq.
  apply createBooking_inv in Heq as [[_ (r & [=] & _)]|([= ->] & -> & _)].
  exists (prisma.nextId db). split; [done|].
  split; [apply nextId_fresh|]. split; [apply lookup_insert_eq|].
  intros j Hj. by apply lookup_insert_ne.
Qed.

Lemma createBooking_stores_request_witness :
  ∃ i, Json (2%positive, Ex.adjacent) = Json (i, Ex.adjacent)
       ∧ Ex.db1 !! i = None
       ∧ <[2%positive := Ex.adjacent]> Ex.db1 !! i = Some Ex.adjacent
       ∧ ∀ j, j ≠ i → <[2%positive := Ex.adjacent]> Ex.db1 !! j = Ex.db1 !! j.
Proof.
  apply (createBooking_stores_request Ex.adjacent Ex.db1
           (<[2%positive := Ex.adjacent]> Ex.db1)
           (Json (2%positive, Ex.adjacent))).
  vm_compute. reflexivity.
Defined.

(** X9. Whatever its answer, [createBooking] leaves every stored
    reservation in the table as it was. *)
Theorem createBooking_keeps_rows
  (booking : Booking) (db : gmap positive Booking) (i : positive) (b : Booking) :
  db !! i = Some b → (createBooking booking db).2 !! i = Some b.
Proof.
  intros Hib.
  destruct (createBooking booking db) as [out db'] eqn:Heq. simpl.
  apply createBooking_inv in Heq as [[-> _]|(_ & -> & _)]; [done|].
  rewrite lookup_insert_ne; [done|].
  intros Heq. pose proof (nextId_fresh db) as Hnew. congruence.
Qed.

Lemma createBooking_keeps_rows_witness :
  (createBooking Ex.adjacent Ex.db1).2 !! 1%positive = Some Ex.stay.
Proof.
  apply (createBooking_keeps_rows Ex.adjacent Ex.db1 1%positive Ex.stay).
  reflexivity.
Defined.

(** X11. On the empty table every request is accepted, whatever its dates
    and nights count, and becomes the only row. *)
Theorem createBooking_empty_table (booking : Booking) :
  createBooking booking ∅
  = (Respond 200 (Json (1%positive, booking)), {[1%positive := booking]}).
Proof.
  rewrite createBooking_accepts.
  - reflexivity.
  - intros j b Hjb. by rewrite lookup_empty in Hjb.
  - intros j b Hjb. by rewrite lookup_empty in Hjb.
Qed.

(** X12. Once [createBooking] has accepted a request, every further
    request of the same guest on the resulting table is rejected and
    leaves the table as it is: with the same-unit reason when it asks for
    the same unit, with the multiple-units reason otherwise. *)
Theorem createBooking_then_same_guest
  (booking next : Booking) (db db' : gmap positive Booking) (body : Body) :
  createBooking booking db = (Respond 200 body, db') →
  guestName next = guestName booking →
  createBooking next db'
  = (Respond 400
       (Text (if bool_decide (unitID next = unitID booking)
              then reason_sameUnit else reason_multipleUnits)), db').
Proof.
  intros Heq Hg.
  apply createBooking_inv in Heq as [[_ (r & [=] & _)]|(_ & -> & Hnone & _)].
  set (i := prisma.nextId db).
  assert (hasStay (guestName next) (<[i := booking]> db)) as Hstay.
  { exists i, booking. split; [apply lookup_insert_eq|done]. }
  assert (hasStayOnUnit (guestName next) (unitID next) (<[i := booking]> db)
          ↔ unitID next = unitID booking) as Hunit.
  { split.
    - intros (j & b & Hjb & Hgb & Hub).
      apply lookup_insert_Some in Hjb as [[_ <-]|[_ Hjb]]; [done|].
      destruct (Hnone j b Hjb). congruence.
    - intros Hu. exists i, booking. split; [apply lookup_insert_eq|done]. }
  destruct (createBooking_cases next (<[i := booking]> db))
    as [(H1 & ->)|[(_ & Hn & ->)|[(Hno & _)|(Hno & _)]]].
  - by rewrite bool_decide_eq_true_2 by by apply Hunit.
  - rewrite bool_decide_eq_false_2; [done|]. intros Hu. apply Hn. by apply Hunit.
  - by apply noStay_not_hasStay in Hno.
  - by apply noStay_not_hasStay in Hno.
Qed.

Lemma createBooking_then_same_guest_witness :
  createBooking Ex.elsewhere {[1%positive := Ex.stay]}
  = (Respond 400 (Text reason_multipleUnits), {[1%positive := Ex.stay]}).
Proof.
  apply (createBooking_then_same_guest Ex.stay Ex.elsewhere ∅
           {[1%positive := Ex.stay]} (Json (1%positive, Ex.stay))).
  - vm_compute. reflexivity.
  - reflexivity.
Defined.

(** ** Answers of [extendBooking] *)

(** X13. [extendBooking] raises nothing: the row that [prisma.update] is
    asked to change is always there.  Its answer is either 200 or a 400
    that leaves the table as it was. *)
Theorem extendBooking_answers (extend : ExtendedBooking) (db : gmap positive Booking) :
  ∃ status body,
    (extendBooking extend db).1 = Respond status body
    ∧ (status = 200 ∨ (status = 400 ∧ (extendBooking extend db).2 = db)).
Proof.
  destruct (findActiveBooking extend db) as [r|] eqn:Hfound.
  - rewrite (extendBooking_found extend db r Hfound).
    destruct (isDateRangeAvailable _ _ _ db); simpl;
      eexists _, _; (split; [reflexivity|]); auto.
  - unfold extendBooking. rewrite Hfound. simpl.
    eexists _, _. split; [reflexivity|]. auto.
Qed.

(** X14. Whatever its answer, [extendBooking] neither adds nor removes a
    row, and it leaves guest, unit and check-in date of every row as they
    were. *)
Theorem extendBooking_keeps_identity
  (extend : ExtendedBooking) (db : gmap positive Booking) :
  dom (extendBooking extend db).2 = dom db
  ∧ ∀ i b, db !! i = Some b →
      ∃ b', (extendBooking extend db).2 !! i = Some b'
            ∧ guestName b' = guestName b ∧ unitID b' = unitID b
            ∧ checkInDate b' = checkInDate b.
Proof.
  destruct (findActiveBooking extend db) as [[j c]|] eqn:Hfound.
  2: { unfold extendBooking. rewrite Hfound. simpl.
       split; [done|]. intros i b Hib. by exists b. }
  rewrite (extendBooking_found extend db _ Hfound).
  apply findActiveBooking_Some in Hfound as (Hl & _ & _). simpl in Hl.
  destruct (isDateRangeAvailable _ _ _ db); simpl.
  2: { split; [done|]. intros i b Hib. by exists b. }
  split.
  - rewrite dom_insert_L. pose proof (elem_of_dom_2 _ _ _ Hl) as Hin.
    apply (anti_symm (⊆)); [|apply union_subseteq_r].
    apply union_subseteq. split; [by apply singleton_subseteq_l|done].
  - intros i b Hib. destruct (decide (i = j)) as [->|Hne].
    + rewrite lookup_insert_eq. eexists. split; [done|].
      rewrite Hl in Hib. injection Hib as <-. done.
    + rewrite lookup_insert_ne by done. by exists b.
Qed.

(** The comparison of a reservation of [n] nights with the interval of
    [k] nights from its own checkout, for [k] between [-n] and 0, when
    the dates computed are valid. *)
Lemma self_clash_true (d n k : Z) :
  - n < k → k ≤ 0 →
  is_Some (getCheckoutDate (getCheckoutDate d n) k) →
  dateRangeClash (getCheckoutDate d n)
    (getCheckoutDate (getCheckoutDate d n) k) d (getCheckoutDate d n) = true.
Proof.
  intros H1 H2 [e He]. pose proof msPerDay_pos.
  destruct (getCheckoutDate d n) as [c|] eqn:Hc; [|done].
  apply getCheckoutDate_Some in Hc as [-> _].
  change (Some ?x) with (Date.valid x) in *.
  rewrite He. apply getCheckoutDate_Some in He as [-> _].
  change (Some ?x) with (Date.valid x). rewrite dateRangeClash_true. nia.
Qed.

(** X15. An extension by zero nights, or by a negative number of nights
    smaller in size than the stored nights count, is rejected with the
    extend reason whenever the dates computed for it are valid dates: the
    comparison against the reservation itself fires. *)
Theorem extendBooking_nonpositive_rejected
  (extend : ExtendedBooking) (db : gmap positive Booking) (r : Row) :
  findActiveBooking extend db = Some r →
  - numberOfNights r.2 < ext_numberOfNights extend →
  ext_numberOfNights extend ≤ 0 →
  is_Some (getCheckoutDate
             (getCheckoutDate (checkInDate r.2) (numberOfNights r.2))
             (ext_numberOfNights extend)) →
  extendBooking extend db = (Respond 400 (Text reason_extend), db).
Proof.
  intros Hfound Hlo Hhi Hvalid.
  rewrite (extendBooking_found extend db r Hfound).
  apply findActiveBooking_Some in Hfound as (Hl & _ & Hu).
  assert (isDateRangeAvailable
            (getCheckoutDate (checkInDate r.2) (numberOfNights r.2))
            (ext_numberOfNights extend) (ext_unitID extend) db = false) as ->;
    [|done].
  apply isDateRangeAvailable_false. exists r.1, r.2.
  split; [done|]. split; [done|]. by apply self_clash_true.
Qed.

Lemma extendBooking_nonpositive_rejected_witness :
  extendBooking (mkExtendedBooking "alice" "U" 0) Ex.db1
  = (Respond 400 (Text reason_extend), Ex.db1).
Proof.
  apply (extendBooking_nonpositive_rejected
           (mkExtendedBooking "alice" "U" 0) Ex.db1 (1%positive, Ex.stay)).
  - vm_compute. reflexivity.
  - simpl. lia.
  - simpl. lia.
  - eexists. vm_compute. reflexivity.
Defined.

(** X16. An extension by a negative number of nights at least as large in
    size as the stored nights count is accepted when the unit holds no
    other reservation, and leaves the stored nights count at zero or
    below. *)
Theorem extendBooking_negative_accepted
  (extend : ExtendedBooking) (db : gmap positive Booking) (r : Row) :
  findActiveBooking extend db = Some r →
  1 ≤ numberOfNights r.2 →
  ext_numberOfNights extend ≤ - numberOfNights r.2 →
  (∀ i b, db !! i = Some b → unitID b = ext_unitID extend → i = r.1) →
  let nights := numberOfNights r.2 + ext_numberOfNights extend in
  extendBooking extend db
  = (Respond 200 (Json (r.1, setNights r.2 nights)),
     <[r.1 := setNights r.2 nights]> db)
  ∧ nights ≤ 0.
Proof.
  intros Hfound Hn Hk Honly nights.
  rewrite (extendBooking_found extend db r Hfound).
  apply findActiveBooking_Some in Hfound as (Hl & _ & Hu).
  assert (isDateRangeAvailable
            (getCheckoutDate (checkInDate r.2) (numberOfNights r.2))
            (ext_numberOfNights extend) (ext_unitID extend) db = true) as ->.
  { apply isDateRangeAvailable_true. intros i b Hib Hub.
    rewrite (Honly i b Hib Hub) in Hib. rewrite Hl in Hib. injection Hib as <-.
    pose proof msPerDay_pos.
    destruct (getCheckoutDate (checkInDate r.2) (numberOfNights r.2))
      as [c|] eqn:Hc.
    2: { apply dateRangeClash_start_invalid. }
    apply getCheckoutDate_Some in Hc as [-> _].
    change (Some ?x) with (Date.valid x).
    apply not_true_is_false.
    destruct (getCheckoutDate (Date.valid _) (ext_numberOfNights extend))
      as [e|] eqn:He.
    - apply getCheckoutDate_Some in He as [-> _].
      change (Some ?x) with (Date.valid x). rewrite dateRangeClash_true. nia.
    - rewrite dateRangeClash_end_invalid_true. nia. }
  split; [done|]. unfold nights. lia.
Qed.

Lemma extendBooking_negative_accepted_witness :
  extendBooking (mkExtendedBooking "alice" "U" (-7)) Ex.db1
  = (Respond 200 (Json (1%positive, setNights Ex.stay (-2))),
     <[1%positive := setNights Ex.stay (-2)]> Ex.db1)
  ∧ 5 + -7 ≤ 0.
Proof.
  apply (extendBooking_negative_accepted
           (mkExtendedBooking "alice" "U" (-7)) Ex.db1 (1%positive, Ex.stay)).
  - vm_compute. reflexivity.
  - simpl. lia.
  - simpl. lia.
  - intros i b Hib _. unfold Ex.db1 in Hib.
    by apply lookup_singleton_Some in Hib as [<- _].
Defined.

(** ** Extensions in two steps *)

Lemma guestsUnique_setNights (db : gmap positive Booking) i b m :
  guestsUnique db → db !! i = Some b →
  guestsUnique (<[i := setNights b m]> db).
Proof.
  intros Hg Hl x y bx by_ Hx Hy Hgn.
  apply (lookup_setNights db i b _ x bx Hl) in Hx as (bx0 & Hx & Hgx & _).
  apply (lookup_setNights db i b _ y by_ Hl) in Hy as (by0 & Hy & Hgy & _).
  apply (Hg x y bx0 by0); [done|done|]. congruence.
Qed.

(** With at most one reservation per guest, the query of [extendBooking]
    returns the one row of the guest when it is on the unit asked for. *)
Lemma findActiveBooking_unique (db : gmap positive Booking) i b extend :
  guestsUnique db → db !! i = Some b →
  guestName b = ext_guestName extend → unitID b = ext_unitID extend →
  findActiveBooking extend db = Some (i, b).
Proof.
  intros Hg Hl Hgb Hub.
  destruct (findActiveBooking extend db) as [[j c]|] eqn:Hfound.
  - apply findActiveBooking_Some in Hfound as (Hj & Hgc & _). simpl in *.
    assert (j = i) as -> by (apply (Hg j i c b); congruence).
    congruence.
  - pose proof (proj1 (findActiveBooking_None extend db) Hfound i b Hl) as H.
    by destruct H.
Qed.

(** Against any stored interval with valid ends, the comparison fires for
    the interval of [k1 + k2] nights exactly when it fires for its first
    [k1] nights or for the [k2] nights after them. *)
Lemma clash_split (c k1 k2 s' e' : Z) :
  1 ≤ k1 → 1 ≤ k2 →
  dateRangeClash c (Date.valid (c + (k1 + k2) * Date.msPerDay)) s' e' = false
  ↔ dateRangeClash c (Date.valid (c + k1 * Date.msPerDay)) s' e' = false
    ∧ dateRangeClash (c + k1 * Date.msPerDay)
        (Date.valid (c + k1 * Date.msPerDay + k2 * Date.msPerDay)) s' e'
      = false.
Proof.
  intros H1 H2. rewrite <- !not_true_iff_false, !dateRangeClash_true.
  unfold Date.msPerDay. lia.
Qed.

(** The same for the reservation being extended, whose own interval has
    grown by [k1] nights between the two steps. *)
Lemma clash_split_self (d n k1 k2 : Z) :
  1 ≤ k1 → 1 ≤ k2 →
  let c := d + n * Date.msPerDay in
  dateRangeClash c (Date.valid (c + (k1 + k2) * Date.msPerDay)) d c = false
  ↔ dateRangeClash c (Date.valid (c + k1 * Date.msPerDay)) d c = false
    ∧ dateRangeClash (c + k1 * Date.msPerDay)
        (Date.valid (c + k1 * Date.msPerDay + k2 * Date.msPerDay)) d
        (Date.valid (c + k1 * Date.msPerDay)) = false.
Proof.
  intros H1 H2 c. unfold c.
  rewrite <- !not_true_iff_false, !dateRangeClash_true.
  unfold Date.msPerDay. lia.
Qed.

Lemma available_split (db : gmap positive Booking) i b u k1 k2 :
  1 ≤ k1 → 1 ≤ k2 → db !! i = Some b → unitID b = u →
  (∀ j bj, db !! j = Some bj → unitID bj = u →
     is_Some (getCheckoutDate (checkInDate bj) (numberOfNights bj))) →
  is_Some (getCheckoutDate (checkInDate b) (numberOfNights b + (k1 + k2))) →
  let b1 := setNights b (numberOfNights b + k1) in
  isDateRangeAvailable (Date.valid (checkOut b)) (k1 + k2) u db = true
  ↔ isDateRangeAvailable (Date.valid (checkOut b)) k1 u db = true
    ∧ isDateRangeAvailable (Date.valid (checkOut b1)) k2 u (<[i := b1]> db)
      = true.
Proof.
  intros H1 H2 Hl Hu Hvalid Hext b1.
  assert (∀ j bj, db !! j = Some bj → unitID bj = u →
            getCheckoutDate (checkInDate bj) (numberOfNights bj)
            = Date.valid (checkOut bj)) as Hrow.
  { intros j bj Hj Huj. apply getCheckoutDate_inRange.
    by apply getCheckoutDate_is_Some, (Hvalid j). }
  pose proof (Hvalid i b Hl Hu) as Hc. apply getCheckoutDate_is_Some in Hc.
  apply getCheckoutDate_is_Some in Hext.
  set (c := checkOut b) in *.
  assert (checkOut b1 = c + k1 * Date.msPerDay) as Hc1.
  { unfold b1, c, checkOut. simpl. lia. }
  assert (getCheckoutDate (Date.valid c) (k1 + k2)
          = Date.valid (c + (k1 + k2) * Date.msPerDay)) as EK.
  { apply getCheckoutDate_inRange. unfold c, checkOut, Date.inRange in *.
    unfold Date.msPerDay in *. lia. }
  assert (getCheckoutDate (Date.valid c) k1
          = Date.valid (c + k1 * Date.msPerDay)) as E1.
  { apply getCheckoutDate_inRange. unfold c, checkOut, Date.inRange in *.
    unfold Date.msPerDay in *. lia. }
  assert (getCheckoutDate (Date.valid (c + k1 * Date.msPerDay)) k2
          = Date.valid (c + k1 * Date.msPerDay + k2 * Date.msPerDay)) as E2.
  { apply getCheckoutDate_inRange. unfold c, checkOut, Date.inRange in *.
    unfold Date.msPerDay in *. lia. }
  assert (getCheckoutDate (checkInDate b1) (numberOfNights b1)
          = Date.valid (c + k1 * Date.msPerDay)) as Eb1.
  { rewrite <- Hc1. apply getCheckoutDate_inRange. fold (checkOut b1).
    rewrite Hc1. unfold c, checkOut, Date.inRange in *.
    unfold Date.msPerDay in *. lia. }
  rewrite !isDateRangeAvailable_true, Hc1, EK, E1, E2.
  split.
  - intros H. split.
    + intros j bj Hj Huj. specialize (H j bj Hj Huj).
      rewrite (Hrow j bj Hj Huj) in H |- *.
      by apply (clash_split c k1 k2) in H as [? ?].
    + intros j bj Hj Huj.
      apply lookup_insert_Some in Hj as [[<- <-]|[Hne Hj]].
      * rewrite Eb1. specialize (H i b Hl Hu). rewrite (Hrow i b Hl Hu) in H.
        by apply (clash_split_self (checkInDate b) (numberOfNights b) k1 k2)
          in H as [? ?].
      * specialize (H j bj Hj Huj). rewrite (Hrow j bj Hj Huj) in H |- *.
        by apply (clash_split c k1 k2) in H as [? ?].
  - intros [Ha Hb] j bj Hj Huj. rewrite (Hrow j bj Hj Huj).
    destruct (decide (j = i)) as [->|Hne].
    + rewrite Hl in Hj. injection Hj as <-.
      apply (clash_split_self (checkInDate b) (numberOfNights b) k1 k2);
        [done|done|]. split.
      * specialize (Ha i b Hl Hu). by rewrite (Hrow i b Hl Hu) in Ha.
      * specialize (Hb i b1 (lookup_insert_eq _ _ _) Hu).
        by rewrite Eb1 in Hb.
    + apply (clash_split c k1 k2); [done|done|]. split.
      * specialize (Ha j bj Hj Huj). by rewrite (Hrow j bj Hj Huj) in Ha.
      * assert (<[i := b1]> db !! j = Some bj) as Hj1
          by by rewrite lookup_insert_ne.
        specialize (Hb j bj Hj1 Huj). by rewrite (Hrow j bj Hj Huj) in Hb.
Qed.

(** X17. On a table with at most one reservation per guest, with the
    checkout dates of the reservations of the unit valid dates and the
    guest's checkout date still valid after [k1 + k2] more nights,
    extending by [k1 + k2] nights in one request is accepted exactly when
    extending by [k1] and then by [k2] nights are both accepted, and the
    two ways end with the same answer and the same table ([k1], [k2] at
    least 1). *)
Theorem extendBooking_in_two_steps
  (g u : string) (k1 k2 : Z) (db db2 : gmap positive Booking) (body : Body) :
  guestsUnique db → 1 ≤ k1 → 1 ≤ k2 →
  (∀ i b, db !! i = Some b → unitID b = u →
     is_Some (getCheckoutDate (checkInDate b) (numberOfNights b))) →
  (∀ i b, db !! i = Some b → guestName b = g → unitID b = u →
     is_Some (getCheckoutDate (checkInDate b)
                (numberOfNights b + (k1 + k2)))) →
  extendBooking (mkExtendedBooking g u (k1 + k2)) db = (Respond 200 body, db2)
  ↔ ∃ body1 db1,
      extendBooking (mkExtendedBooking g u k1) db = (Respond 200 body1, db1)
      ∧ extendBooking (mkExtendedBooking g u k2) db1 = (Respond 200 body, db2).
Proof.
  intros Hg H1 H2 Hvalid Hext.
  destruct (findActiveBooking (mkExtendedBooking g u k1) db) as [[i b]|]
    eqn:Hfound.
  2: { unfold extendBooking.
       change (findActiveBooking (mkExtendedBooking g u (k1 + k2)) db)
         with (findActiveBooking (mkExtendedBooking g u k1) db).
       rewrite Hfound. split; [done|]. by intros (? & ? & [=] & _). }
  assert (findActiveBooking (mkExtendedBooking g u (k1 + k2)) db = Some (i, b))
    as Hfound12 by exact Hfound.
  rewrite (extendBooking_found _ db _ Hfound12).
  rewrite (extendBooking_found _ db _ Hfound).
  apply findActiveBooking_Some in Hfound as (Hl & Hgb & Hub).
  cbn [fst snd ext_guestName ext_unitID ext_numberOfNights] in *.
  set (b1 := setNights b (numberOfNights b + k1)).
  assert (findActiveBooking (mkExtendedBooking g u k2) (<[i := b1]> db)
          = Some (i, b1)) as Hfound2.
  { apply findActiveBooking_unique; [by apply guestsUnique_setNights| |done|done].
    apply lookup_insert_eq. }
  pose proof (available_split db i b u k1 k2 H1 H2 Hl Hub Hvalid
                (Hext i b Hl Hgb Hub)) as Hav.
  cbv zeta in Hav. fold b1 in Hav.
  pose proof (Hvalid i b Hl Hub) as Hc. apply getCheckoutDate_is_Some in Hc.
  pose proof (Hext i b Hl Hgb Hub) as HK. apply getCheckoutDate_is_Some in HK.
  assert (getCheckoutDate (checkInDate b1) (numberOfNights b1)
          = Date.valid (checkOut b1)) as Eb1.
  { apply getCheckoutDate_inRange. unfold b1, Date.inRange in *. simpl.
    unfold Date.msPerDay in *. lia. }
  rewrite (getCheckoutDate_inRange _ _ Hc). fold (checkOut b).
  assert (setNights b1 (numberOfNights b1 + k2)
          = setNights b (numberOfNights b + (k1 + k2))) as Hb2.
  { unfold b1, setNights. simpl. f_equal. lia. }
  split.
  - destruct (isDateRangeAvailable _ (k1 + k2) u db) eqn:H12; [|done].
    intros [= <- <-]. destruct (proj1 Hav eq_refl) as [Ha Hb].
    exists (Json (i, b1)), (<[i := b1]> db). rewrite Ha. split; [done|].
    rewrite (extendBooking_found _ _ _ Hfound2).
    cbn [fst snd ext_guestName ext_unitID ext_numberOfNights].
    rewrite Eb1, Hb. cbn [negb]. rewrite Hb2. by rewrite insert_insert_eq.
  - intros (body1 & db1 & Hstep1 & Hstep2).
    destruct (isDateRangeAvailable _ k1 u db) eqn:Ha; [|done].
    injection Hstep1 as <- <-.
    rewrite (extendBooking_found _ _ _ Hfound2) in Hstep2.
    cbn [fst snd ext_guestName ext_unitID ext_numberOfNights] in Hstep2.
    rewrite Eb1 in Hstep2.
    destruct (isDateRangeAvailable _ k2 u (<[i := b1]> db)) eqn:Hb; [|done].
    rewrite (proj2 Hav (conj eq_refl eq_refl)).
    cbn [negb] in Hstep2. rewrite Hb2, insert_insert_eq in Hstep2. done.
Qed.

Lemma extendBooking_in_two_steps_witness :
  extendBooking (mkExtendedBooking "alice" "U" (1 + 2)) Ex.db1
  = (Respond 200 (Json (1%positive, setNights Ex.stay 8)),
     <[1%positive := setNights Ex.stay 8]> Ex.db1)
  ↔ ∃ body1 db1,
      extendBooking (mkExtendedBooking "alice" "U" 1) Ex.db1
      = (Respond 200 body1, db1)
      ∧ extendBooking (mkExtendedBooking "alice" "U" 2) db1
        = (Respond 200 (Json (1%positive, setNights Ex.stay 8)),
           <[1%positive := setNights Ex.stay 8]> Ex.db1).
Proof.
  apply (extendBooking_in_two_steps "alice" "U" 1 2 Ex.db1).
  - intros i j bi bj Hi Hj _. unfold Ex.db1 in Hi, Hj.
    apply lookup_singleton_Some in Hi as [<- _].
    by apply lookup_singleton_Some in Hj as [<- _].
  - lia.
  - lia.
  - intros i b Hib _. unfold Ex.db1 in Hib.
    apply lookup_singleton_Some in Hib as [_ <-].
    eexists. vm_compute. reflexivity.
  - intros i b Hib _ _. unfold Ex.db1 in Hib.
    apply lookup_singleton_Some in Hib as [_ <-].
    eexists. vm_compute. reflexivity.
Defined.

(** ** Runs of requests *)

Lemma handle_keeps_row (req : Request) (db : gmap positive Booking) i b :
  db !! i = Some b →
  ∃ b', (handle req db).2 !! i = Some b'
        ∧ guestName b' = guestName b ∧ unitID b' = unitID b
        ∧ checkInDate b' = checkInDate b
        ∧ (0 ≤ request_nights req → numberOfNights b ≤ numberOfNights b').
Proof.
  intros Hib. destruct req as [booking|extend]; simpl.
  - exists b. destruct (createBooking booking db) as [out db'] eqn:Heq. simpl.
    apply createBooking_inv in Heq as [[-> _]|(_ & -> & _)].
    + repeat split; [done|lia].
    + rewrite lookup_insert_ne; [repeat split; [done|lia]|].
      intros Heq. pose proof (nextId_fresh db). congruence.
  - destruct (findActiveBooking extend db) as [[j c]|] eqn:Hfound.
    2: { unfold extendBooking. rewrite Hfound. simpl. exists b.
         repeat split; [done|lia]. }
    rewrite (extendBooking_found extend db _ Hfound).
    apply findActiveBooking_Some in Hfound as (Hl & _ & _). simpl in Hl.
    destruct (isDateRangeAvailable _ _ _ db); simpl.
    2: { exists b. repeat split; [done|lia]. }
    destruct (decide (i = j)) as [->|Hne].
    + rewrite lookup_insert_eq. eexists. split; [done|].
      rewrite Hl in Hib. injection Hib as <-. simpl. repeat split. lia.
    + rewrite lookup_insert_ne by done. exists b. repeat split; [done|lia].
Qed.

Lemma serve_keeps_row (reqs : list Request) (db : gmap positive Booking) i b :
  db !! i = Some b →
  ∃ b', serve reqs db !! i = Some b'
        ∧ guestName b' = guestName b ∧ unitID b' = unitID b
        ∧ checkInDate b' = checkInDate b
        ∧ (Forall (λ req, 0 ≤ request_nights req) reqs →
           numberOfNights b ≤ numberOfNights b').
Proof.
  revert db b. induction reqs as [|req reqs IH]; intros db b Hib; simpl.
  - exists b. repeat split; [done|lia].
  - destruct (handle_keeps_row req db i b Hib)
      as (b1 & H1 & Hg1 & Hu1 & Hc1 & Hn1).
    destruct (IH _ b1 H1) as (b2 & H2 & Hg2 & Hu2 & Hc2 & Hn2).
    exists b2. split; [done|]. split; [congruence|]. split; [congruence|].
    split; [congruence|]. intros Hall.
    apply Forall_cons in Hall as [Hreq Hall].
    specialize (Hn1 Hreq). specialize (Hn2 Hall). lia.
Qed.

(** X18. No run of requests removes a stored reservation or changes its
    guest, unit or check-in date, whatever the requests carry. *)
Theorem serve_keeps_reservations
  (reqs : list Request) (db : gmap positive Booking) (i : positive) (b : Booking) :
  db !! i = Some b →
  ∃ b', serve reqs db !! i = Some b'
        ∧ guestName b' = guestName b ∧ unitID b' = unitID b
        ∧ checkInDate b' = checkInDate b.
Proof.
  intros Hib.
  destruct (serve_keeps_row reqs db i b Hib) as (b' & H & Hg & Hu & Hc & _).
  by exists b'.
Qed.

Lemma serve_keeps_reservations_witness :
  ∃ b', serve Ex.session Ex.db1 !! 1%positive = Some b'
        ∧ guestName b' = "alice" ∧ unitID b' = "U"
        ∧ checkInDate b' = Ex.march 1.
Proof.
  apply (serve_keeps_reservations Ex.session Ex.db1 1%positive Ex.stay).
  reflexivity.
Defined.

(** X19. Over a run of requests none of which carries a negative nights
    count, the nights count of a stored reservation never goes down. *)
Theorem serve_nights_never_shrink
  (reqs : list Request) (db : gmap positive Booking) (i : positive) (b : Booking) :
  Forall (λ req, 0 ≤ request_nights req) reqs →
  db !! i = Some b →
  ∃ b', serve reqs db !! i = Some b' ∧ numberOfNights b ≤ numberOfNights b'.
Proof.
  intros Hall Hib.
  destruct (serve_keeps_row reqs db i b Hib) as (b' & H & _ & _ & _ & Hn).
  exists b'. split; [done|]. by apply Hn.
Qed.

Lemma serve_nights_never_shrink_witness :
  ∃ b', serve Ex.session Ex.db1 !! 1%positive = Some b'
        ∧ 5 ≤ numberOfNights b'.
Proof.
  apply (serve_nights_never_shrink Ex.session Ex.db1 1%positive Ex.stay).
  - unfold Ex.session. repeat constructor; simpl; lia.
  - reflexivity.
Defined.

(** X20. A guest who holds a stored reservation is refused every further
    booking, on whatever unit and dates and after whatever requests came
    in between: the answer is 400 with the same-unit or the multiple-units
    reason, and the table is left as it was. *)
Theorem createBooking_guest_refused_for_good
  (next : Booking) (reqs : list Request) (db : gmap positive Booking) :
  hasStay (guestName next) db →
  ∃ r, createBooking next (serve reqs db)
       = (Respond 400 (Text r), serve reqs db)
       ∧ (r = reason_sameUnit ∨ r = reason_multipleUnits).
Proof.
  intros (i & b & Hib & Hg).
  destruct (serve_keeps_row reqs db i b Hib) as (b' & H & Hg' & _).
  assert (hasStay (guestName next) (serve reqs db)) as Hstay.
  { exists i, b'. split; [done|congruence]. }
  destruct (createBooking_cases next (serve reqs db))
    as [(_ & ->)|[(_ & _ & ->)|[(Hno & _)|(Hno & _)]]].
  - eexists. split; [done|]. by left.
  - eexists. split; [done|]. by right.
  - by apply noStay_not_hasStay in Hno.
  - by apply noStay_not_hasStay in Hno.
Qed.

Lemma createBooking_guest_refused_for_good_witness :
  ∃ r, createBooking Ex.elsewhere (serve Ex.session Ex.db1)
       = (Respond 400 (Text r), serve Ex.session Ex.db1)
       ∧ (r = reason_sameUnit ∨ r = reason_multipleUnits).
Proof.
  apply (createBooking_guest_refused_for_good Ex.elsewhere Ex.session Ex.db1).
  exists 1%positive, Ex.stay. split; reflexivity.
Defined.

Lemma handle_guestsUnique (req : Request) (db : gmap positive Booking) :
  guestsUnique db → guestsUnique (handle req db).2.
Proof.
  intros Hg. destruct req as [booking|extend]; simpl.
  - destruct (createBooking booking db) as [out db'] eqn:Heq. simpl.
    apply createBooking_inv in Heq as [[-> _]|(_ & -> & Hnone & _)]; [done|].
    intros i j bi bj Hi Hj Hgn.
    apply lookup_insert_Some in Hi as [[<- <-]|[Hi' Hi]];
      apply lookup_insert_Some in Hj as [[<- <-]|[Hj' Hj]]; try done.
    + by destruct (Hnone j bj).
    + by destruct (Hnone i bi).
    + by apply (Hg i j bi bj).
  - destruct (findActiveBooking extend db) as [[j c]|] eqn:Hfound.
    2: { unfold extendBooking. by rewrite Hfound. }
    rewrite (extendBooking_found extend db _ Hfound).
    apply findActiveBooking_Some in Hfound as (Hl & _ & _). simpl in Hl.
    destruct (isDateRangeAvailable _ _ _ db); simpl; [|done].
    by apply guestsUnique_setNights.
Qed.

(** X21. From the empty table, after any run of requests, whatever nights
    counts they carry, no guest has more than one stored reservation. *)
Theorem serve_guestsUnique (reqs : list Request) :
  guestsUnique (serve reqs ∅).
Proof.
  assert (∀ db, guestsUnique db → guestsUnique (serve reqs db)) as H.
  { induction reqs as [|req reqs IH]; intros db Hdb; simpl; [done|].
    apply IH. by apply handle_guestsUnique. }
  apply H. intros i j bi bj Hi. by rewrite lookup_empty in Hi.
Qed.

(** X22. From any table in which units are free of overlaps, guests hold
    at most one reservation, every reservation lasts at least one night
    and starts no earlier than [- maxTime], and every checkout stays no
    later than [maxTime] after the nights of the run are added, a run of
    requests that each carry at least one night, with booking requests
    that fit the range of [Date] in the same way, leads to a table with
    the same three properties; in particular no stored nights count ever
    drops below 1. *)
Theorem serve_keeps_consistent
  (reqs : list Request) (db : gmap positive Booking) :
  consistent db → withinRange (totalNights reqs) db →
  Forall (λ req, 1 ≤ request_nights req) reqs →
  Forall (requestFits (totalNights reqs)) reqs →
  unitsDisjoint (serve reqs db) ∧ guestsUnique (serve reqs db)
  ∧ nightsPositive (serve reqs db).
Proof.
  intros Hdb Hr Hreqs Hfit.
  by destruct (serve_consistent reqs db (totalNights reqs)) as [? _].
Qed.

Lemma serve_keeps_consistent_witness :
  unitsDisjoint (serve Ex.session Ex.db1) ∧ guestsUnique (serve Ex.session Ex.db1)
  ∧ nightsPositive (serve Ex.session Ex.db1).
Proof.
  apply (serve_keeps_consistent Ex.session Ex.db1).
  - repeat split.
    + intros i j bi bj Hi Hj Hij. unfold Ex.db1 in Hi, Hj.
      apply lookup_singleton_Some in Hi as [<- _].
      by apply lookup_singleton_Some in Hj as [<- _].
    + intros i j bi bj Hi Hj _. unfold Ex.db1 in Hi, Hj.
      apply lookup_singleton_Some in Hi as [<- _].
      by apply lookup_singleton_Some in Hj as [<- _].
    + intros i b Hi. unfold Ex.db1 in Hi.
      apply lookup_singleton_Some in Hi as [_ <-]. simpl. lia.
  - intros i b Hi. unfold Ex.db1 in Hi.
    apply lookup_singleton_Some in Hi as [_ <-].
    split; vm_compute; discriminate.
  - unfold Ex.session. repeat constructor; simpl; lia.
  - unfold Ex.session. repeat constructor; vm_compute; discriminate.
Defined.

(** ** More on the date comparison *)

(** X23. With at least one night on both sides and both checkout dates
    valid dates, the comparison of [isDateRangeAvailable] gives the same
    answer when candidate and stored reservation change places. *)
Theorem dateRangeClash_symmetric (s n s' n' : Z) :
  1 ≤ n → 1 ≤ n' →
  is_Some (getCheckoutDate s n) → is_Some (getCheckoutDate s' n') →
  dateRangeClash s (getCheckoutDate s n) s' (getCheckoutDate s' n')
  = dateRangeClash s' (getCheckoutDate s' n') s (getCheckoutDate s n).
Proof.
  intros Hn Hn' Hv Hv'. apply getCheckoutDate_is_Some in Hv, Hv'.
  rewrite !getCheckoutDate_inRange by done.
  apply bool_eq_iff. rewrite !dateRangeClash_true.
  unfold Date.msPerDay. lia.
Qed.

Lemma dateRangeClash_symmetric_witness :
  dateRangeClash (Ex.march 5) (getCheckoutDate (Ex.march 5) 1)
    (Ex.march 1) (getCheckoutDate (Ex.march 1) 5)
  = dateRangeClash (Ex.march 1) (getCheckoutDate (Ex.march 1) 5)
      (Ex.march 5) (getCheckoutDate (Ex.march 5) 1).
Proof.
  apply (dateRangeClash_symmetric (Ex.march 5) 1 (Ex.march 1) 5); try lia.
  - eexists. vm_compute. reflexivity.
  - eexists. vm_compute. reflexivity.
Defined.

(** X24. A request for zero nights by a guest without a stored
    reservation is rejected as occupied whenever its check-in date lies
    between check-in and checkout of a stored reservation of the unit,
    both ends included, the dates computed being valid dates: also on the
    checkout day itself, on which a request for one night or more does
    not clash with that reservation. *)
Theorem createBooking_zero_nights_occupied
  (booking : Booking) (db : gmap positive Booking) (i : positive) (b : Booking) :
  noStayOfGuest (guestName booking) db →
  numberOfNights booking = 0 →
  db !! i = Some b → unitID b = unitID booking → 1 ≤ numberOfNights b →
  is_Some (getCheckoutDate (checkInDate booking) (numberOfNights booking)) →
  is_Some (getCheckoutDate (checkInDate b) (numberOfNights b)) →
  checkInDate b ≤ checkInDate booking →
  checkInDate booking ≤ checkOut b →
  createBooking booking db = (Respond 400 (Text reason_occupied), db).
Proof.
  intros Hg Hn Hib Hu Hnb Hv Hvb Hlo Hhi.
  apply createBooking_occupied; [done|]. exists i, b.
  split; [done|]. split; [done|].
  apply getCheckoutDate_is_Some in Hv, Hvb.
  rewrite !getCheckoutDate_inRange by done. rewrite Hn.
  apply dateRangeClash_true.
  unfold checkOut, Date.msPerDay in *. lia.
Qed.

Lemma createBooking_zero_nights_occupied_witness :
  createBooking (mkBooking "bob" "U" (Ex.march 6) 0) Ex.db1
  = (Respond 400 (Text reason_occupied), Ex.db1).
Proof.
  apply (createBooking_zero_nights_occupied
           (mkBooking "bob" "U" (Ex.march 6) 0) Ex.db1 1%positive Ex.stay).
  - intros j b Hjb. unfold Ex.db1 in Hjb.
    by apply lookup_singleton_Some in Hjb as [_ <-].
  - reflexivity.
  - reflexivity.
  - reflexivity.
  - simpl. lia.
  - eexists. vm_compute. reflexivity.
  - eexists. vm_compute. reflexivity.
  - vm_compute. discriminate.
  - vm_compute. discriminate.
Defined.

(** X25. For a request of at least one night, on a table whose
    reservations of the requested unit last at least one night each, all
    checkout dates being valid dates, [createBooking] answers 200 exactly
    when the guest holds no stored reservation and no stored reservation
    of the unit overlaps the requested interval in the half-open sense. *)
Theorem createBooking_accepted_iff
  (booking : Booking) (db : gmap positive Booking) :
  1 ≤ numberOfNights booking →
  is_Some (getCheckoutDate (checkInDate booking) (numberOfNights booking)) →
  (∀ i b, db !! i = Some b → unitID b = unitID booking →
          1 ≤ numberOfNights b
          ∧ is_Some (getCheckoutDate (checkInDate b) (numberOfNights b))) →
  (∃ body, (createBooking booking db).1 = Respond 200 body)
  ↔ noStayOfGuest (guestName booking) db
    ∧ ∀ i b, db !! i = Some b → unitID b = unitID booking →
        intervalsOverlap (checkInDate booking) (numberOfNights booking)
          (checkInDate b) (numberOfNights b) = false.
Proof.
  intros Hn Hv Hpos. split.
  - intros (body & Hok).
    destruct (createBooking booking db) as [out db'] eqn:Heq. simpl in Hok.
    subst out.
    apply createBooking_inv in Heq as [[_ (r & [=] & _)]|(_ & _ & Hg & Hc)].
    split; [done|]. intros i b Hib Hu. destruct (Hpos i b Hib Hu) as [_ Hvb].
    apply no_clash_no_overlap; [done|done|]. by apply (Hc i).
  - intros [Hg Hov]. rewrite createBooking_accepts; [by eexists|done|].
    intros i b Hib Hu. apply not_true_is_false. intros Hc.
    apply clash_overlap in Hc; [|done|by apply (Hpos i)].
    rewrite (Hov i b Hib Hu) in Hc. done.
Qed.

Lemma createBooking_accepted_iff_witness :
  (∃ body, (createBooking Ex.adjacent Ex.db1).1 = Respond 200 body)
  ↔ noStayOfGuest "bob" Ex.db1
    ∧ ∀ i b, Ex.db1 !! i = Some b → unitID b = "U" →
        intervalsOverlap (Ex.march 6) 3 (checkInDate b) (numberOfNights b)
        = false.
Proof.
  apply (createBooking_accepted_iff Ex.adjacent Ex.db1).
  - simpl. lia.
  - eexists. vm_compute. reflexivity.
  - intros i b Hib _. unfold Ex.db1 in Hib.
    apply lookup_singleton_Some in Hib as [_ <-].
    split; [simpl; lia|]. eexists. vm_compute. reflexivity.
Defined.

(** ** Booking, then extending *)

(** X26. On the table that an accepted booking leaves, the query of
    [extendBooking] finds the new reservation: an extension request of
    the same guest for the same unit is never answered with the
    no-active-booking reason, and one for any other unit always is. *)
Theorem createBooking_then_extendBooking
  (booking : Booking) (db db' : gmap positive Booking) (body : Body)
  (u : string) (k : Z) :
  createBooking booking db = (Respond 200 body, db') →
  (u = unitID booking →
   (extendBooking (mkExtendedBooking (guestName booking) u k) db').1
   ≠ Respond 400 (Text reason_noActive))
  ∧ (u ≠ unitID booking →
     extendBooking (mkExtendedBooking (guestName booking) u k) db'
     = (Respond 400 (Text reason_noActive), db')).
Proof.
  intros Heq.
  apply createBooking_inv in Heq as [[_ (r & [=] & _)]|(_ & -> & Hnone & _)].
  set (i := prisma.nextId db).
  set (extend := mkExtendedBooking (guestName booking) u k).
  split.
  - intros ->.
    destruct (findActiveBooking extend (<[i := booking]> db)) as [r|] eqn:Hf.
    + rewrite (extendBooking_found _ _ _ Hf).
      destruct (isDateRangeAvailable _ _ _ _); simpl; [done|].
      intros [=].
    + pose proof (proj1 (findActiveBooking_None _ _) Hf i booking
                    (lookup_insert_eq _ _ _)) as H.
      by destruct H.
  - intros Hu. unfold extendBooking.
    assert (findActiveBooking extend (<[i := booking]> db) = None) as ->; [|done].
    apply findActiveBooking_None. intros j b Hjb [Hg Hub]. simpl in Hg, Hub.
    apply lookup_insert_Some in Hjb as [[_ <-]|[_ Hjb]].
    + by destruct Hu.
    + by destruct (Hnone j b Hjb).
Qed.

Lemma createBooking_then_extendBooking_witness :
  ("U" = "U" →
   (extendBooking (mkExtendedBooking "alice" "U" 3) Ex.db1).1
   ≠ Respond 400 (Text reason_noActive))
  ∧ ("U" ≠ "U" →
     extendBooking (mkExtendedBooking "alice" "U" 3) Ex.db1
     = (Respond 400 (Text reason_noActive), Ex.db1)).
Proof.
  apply (createBooking_then_extendBooking Ex.stay ∅ Ex.db1
           (Json (1%positive, Ex.stay)) "U" 3).
  vm_compute. reflexivity.
Defined.
